(** * Sentiment-Analysis: the sample Snapshot generator and the data hook

    A shallow embedding of [frontend/src/hooks/useSentimentData.js]
    (functions [getSampleData] and [useSentimentData]) together with the
    label helper [getSentimentInfo] of [LiveFeed.jsx].

    Modelling conventions.
    - JavaScript numbers are modelled by exact rationals [Q]: every
      arithmetic operation is the exact one, and
      [parseFloat(x.toFixed(3))] is rounding to the nearest multiple of
      1/1000, halves away from zero ([toFixed3]).  Integer quantities
      (counts, loop indices, millisecond timestamps) are [Z] or [nat].
      The computations that decide the boundary cases are evaluated in
      IEEE binary64 as well ([sentimentBinary64]).
    - [Math.random()] is an explicit input: [rand k] is the result of the
      [k]-th call, and a counter is threaded through the generator
      ([Gen]).  ECMAScript guarantees [0 <= rand k < 1] ([unitInterval]).
    - [new Date()] is an explicit input [now], in milliseconds since the
      epoch.  The host time zone is taken to have a fixed UTC offset, so
      that [date.setDate(date.getDate() - day)] moves the instant back by
      exactly [day] times 86400000 ms.
    - An ISO-8601 string produced by [toISOString()] is represented by the
      instant it renders; its [YYYY-MM-DD] prefix by the UTC day number
      ([isoDate]).  [published.startsWith(dateStr)] is then equality of
      day numbers. *)

From Stdlib Require Import QArith Qround Qabs Lqa Lia ZArith Bool Floats.
From Stdlib Require Import String DecimalString List Permutation Sorted.
Import ListNotations.

Open Scope Q_scope.

(** ** Numbers *)

(** [Math.max] and [Math.min] on two arguments. *)
Definition JSmax (a b : Q) : Q := if Qle_bool a b then b else a.
Definition JSmin (a b : Q) : Q := if Qle_bool a b then a else b.

(** Strict comparison [a < b] as a boolean. *)
Definition Qlt_bool (a b : Q) : bool := negb (Qle_bool b a).

(** The integer [n] that [Number.prototype.toFixed] picks for [x * 10^f]:
    nearest integer, the larger magnitude on a tie. *)
Definition roundHalfAway (x : Q) : Z :=
  if Qle_bool 0 x then Qfloor (x + (1 # 2)) else (- Qfloor (- x + (1 # 2)))%Z.

(** [parseFloat(x.toFixed(3))]. *)
Definition toFixed3 (x : Q) : Q := Qmake (roundHalfAway (x * 1000)) 1000.

(** [xs.reduce((a, b) => a + b, 0)]. *)
Definition sumQ (xs : list Q) : Q := fold_left Qplus xs 0.

(** [xs.reduce((a, b) => a + b, 0) / xs.length]. *)
Definition mean (xs : list Q) : Q := sumQ xs / inject_Z (Z.of_nat (length xs)).

(** ** Data model *)

Inductive Label : Type := Positive | Negative | Neutral.

(** The ternary [x > 0.2 ? 'Positive' : x < -0.2 ? 'Negative' : 'Neutral'],
    written inline at lines 98, 138 and 148 of [useSentimentData.js], and
    the [label] field returned by [getSentimentInfo] in [LiveFeed.jsx]. *)
Definition labelOf (x : Q) : Label :=
  if Qlt_bool 0.2 x then Positive
  else if Qlt_bool x (-0.2) then Negative
  else Neutral.

Definition getSentimentInfo (score : Q) : Label := labelOf score.

Record Article : Type := {
  headline : string;
  source : string;
  link : string;
  published : Z;
  sentiment_score : Q;
  sentiment_label : Label;
  confidence : Q
}.

(** [moving_avg] is absent from the object until the moving-average loop
    assigns it. *)
Record DailyStat : Type := {
  date : Z;
  avg_sentiment : Q;
  article_count : Z;
  positive_count : Z;
  negative_count : Z;
  neutral_count : Z;
  moving_avg : option Q
}.

Record SourceStat : Type := {
  ss_source : string;
  ss_avg_sentiment : Q;
  ss_article_count : Z;
  ss_sentiment_label : Label
}.

Record Snapshot : Type := {
  last_updated : Z;
  total_articles : Z;
  overall_sentiment : Q;
  overall_label : Label;
  daily_stats : list DailyStat;
  source_stats : list SourceStat;
  articles : list Article
}.

(** ** Dates *)

Definition msPerDay : Z := 86400000.
Definition msPerHour : Z := 3600000.

(** The UTC calendar day of an instant: what
    [toISOString().split('T')[0]] denotes. *)
Definition isoDate (t : Z) : Z := (t / msPerDay)%Z.

(** [published.startsWith(dateStr)]. *)
Definition startsWith (published dateStr : Z) : bool :=
  (isoDate published =? dateStr)%Z.

(** ** Arrays *)

(** [Array.prototype.slice(a, b)] for [0 <= a]. *)
Definition slice {A : Type} (a b : nat) (l : list A) : list A :=
  firstn (b - a) (skipn a l).

(** In-place update of the element at index [i]; nothing happens when
    [i] is out of range (the generator never does that). *)
Fixpoint update {A : Type} (i : nat) (f : A -> A) (l : list A) : list A :=
  match l, i with
  | [], _ => []
  | x :: l', O => f x :: l'
  | x :: l', S j => x :: update j f l'
  end.

(** [Array.prototype.sort(cmp)]: a stable sort; [cmp x y <= 0] keeps [x]
    in front of [y]. *)
Fixpoint insertBy {A : Type} (cmp : A -> A -> Z) (x : A) (l : list A) : list A :=
  match l with
  | [] => [x]
  | y :: l' => if (cmp x y <=? 0)%Z then x :: l else y :: insertBy cmp x l'
  end.

Definition sortBy {A : Type} (cmp : A -> A -> Z) (l : list A) : list A :=
  fold_right (insertBy cmp) [] l.

(** ** The random generator as explicit state *)

Definition Gen (A : Type) : Type := nat -> A * nat.

Definition ret {A : Type} (a : A) : Gen A := fun k => (a, k).

Definition bind {A B : Type} (m : Gen A) (f : A -> Gen B) : Gen B :=
  fun k => let (a, k') := m k in f a k'.

Notation "x <- m ;; f" := (bind m (fun x => f))
  (at level 61, m at next level, right associativity).

(** What ECMAScript promises of [Math.random()]. *)
Definition unitInterval (rand : nat -> Q) : Prop :=
  forall k, 0 <= rand k /\ rand k < 1.

(** ** Constant tables of [getSampleData] *)

Open Scope string_scope.

Definition sources : list string :=
  [ "TechCrunch"; "The Verge"; "Bloomberg"; "Reuters";
    "BBC News"; "Ars Technica"; "VentureBeat"; "MIT Technology Review";
    "The Guardian"; "New York Times"; "Wired"; "CNBC" ].

Record Headline : Type := { text : string; sentiment : Q }.

Definition headlines : list Headline :=
  [ {| text := "OpenAI Announces Major Breakthrough in AI Safety Research"; sentiment := 0.75 |};
    {| text := "Google DeepMind Achieves New Milestone in Protein Folding"; sentiment := 0.82 |};
    {| text := "Concerns Rise Over AI Job Displacement in Tech Industry"; sentiment := -0.65 |};
    {| text := "ChatGPT Reaches 200 Million Weekly Users Milestone"; sentiment := 0.58 |};
    {| text := "EU Passes Landmark AI Regulation Bill"; sentiment := 0.12 |};
    {| text := "Microsoft Integrates AI Deeply Into Windows"; sentiment := 0.45 |};
    {| text := "AI Startup Raises $500M in Series C Funding"; sentiment := 0.62 |};
    {| text := "Experts Warn of AI-Generated Misinformation Risks"; sentiment := -0.78 |};
    {| text := "New AI Model Achieves Human-Level Performance on Tests"; sentiment := 0.71 |};
    {| text := "Tech Giants Face Scrutiny Over AI Training Data"; sentiment := -0.42 |};
    {| text := "AI-Powered Drug Discovery Shows Promising Results"; sentiment := 0.85 |};
    {| text := "Privacy Concerns Mount as AI Surveillance Expands"; sentiment := -0.68 |};
    {| text := "Anthropic Releases Claude 3 with Enhanced Capabilities"; sentiment := 0.55 |};
    {| text := "AI Copyright Lawsuit Takes Unexpected Turn"; sentiment := -0.35 |};
    {| text := "Meta Unveils New AI-Powered Social Features"; sentiment := 0.38 |};
    {| text := "AI Bias Study Reveals Persistent Discrimination Issues"; sentiment := -0.72 |};
    {| text := "Autonomous Vehicles Make Safety Breakthrough"; sentiment := 0.68 |};
    {| text := "China Announces Major AI Investment Initiative"; sentiment := 0.25 |};
    {| text := "AI Art Generator Sparks Creative Industry Debate"; sentiment := -0.18 |};
    {| text := "Healthcare AI Tools Receive FDA Approval"; sentiment := 0.79 |} ].

(** Decimal rendering of a loop index inside a template literal. *)
Definition decimal (n : nat) : string := NilEmpty.string_of_uint (Nat.to_uint n).

(** [`https://example.com/article-${day}-${i}`]. *)
Definition articleLink (day i : nat) : string :=
  "https://example.com/article-" ++ decimal day ++ "-" ++ decimal i.

Close Scope string_scope.

(** [table[Math.floor(r * table.length)]]; for [0 <= r < 1] the index is
    in range and the default is never returned. *)
Definition pick {A : Type} (table : list A) (dflt : A) (r : Q) : A :=
  nth (Z.to_nat (Qfloor (r * inject_Z (Z.of_nat (length table))))) table dflt.

(** ** [getSampleData] *)

Section SampleData.

(** [const now = new Date()], and the outcomes of [Math.random()]. *)
Variable now : Z.
Variable rand : nat -> Q.

(** One call of [Math.random()]. *)
Definition random : Gen Q := fun k => (rand k, S k).

Definition noHeadline : Headline := {| text := EmptyString; sentiment := 0 |}.

(** Body of the inner loop (lines 87-102): the pushed article and the
    unrounded [sentiment] that is added to [dayTotal]. *)
Definition newArticle (date : Z) (day i : nat) : Gen (Article * Q) :=
  r1 <- random ;;
  let headlineData := pick headlines noHeadline r1 in
  r2 <- random ;;
  let source := pick sources EmptyString r2 in
  r3 <- random ;;
  let variation := (r3 - 0.5) * 0.3 in
  let sentiment := JSmax (-1) (JSmin 1 (sentiment headlineData + variation)) in
  r4 <- random ;;
  ret ({| headline := text headlineData;
          source := source;
          link := articleLink day i;
          published := (date - Z.of_nat i * msPerHour)%Z;
          sentiment_score := toFixed3 sentiment;
          sentiment_label := labelOf sentiment;
          confidence := toFixed3 (0.7 + r4 * 0.25) |},
       sentiment).

(** [for (let i = ...; i < numArticles; i++)], with [todo] iterations
    left; the state is the shared [articles] array and [dayTotal]. *)
Fixpoint articleLoop (date : Z) (day todo i : nat) (st : list Article * Q)
  : Gen (list Article * Q) :=
  match todo with
  | O => ret st
  | S todo' =>
      p <- newArticle date day i ;;
      articleLoop date day todo' (S i) (fst st ++ [fst p], snd st + snd p)
  end.

(** [articles.filter(a => a.published.startsWith(dateStr) && test(a.sentiment_score)).length] *)
Definition countOn (dateStr : Z) (test : Q -> bool) (articles : list Article) : Z :=
  Z.of_nat (length (filter
    (fun a => startsWith (published a) dateStr && test (sentiment_score a)) articles)).

Definition isPositive (s : Q) : bool := Qlt_bool 0.2 s.
Definition isNegative (s : Q) : bool := Qlt_bool s (-0.2).
Definition isNeutral (s : Q) : bool := Qle_bool (Qabs s) 0.2.

(** Body of the outer loop (lines 78-113). *)
Definition dayBody (day : nat) (st : list Article * list DailyStat)
  : Gen (list Article * list DailyStat) :=
  let date := (now - Z.of_nat day * msPerDay)%Z in
  let dateStr := isoDate date in
  r <- random ;;
  let numArticles := (4 + Qfloor (r * 5))%Z in
  p <- articleLoop date day (Z.to_nat numArticles) 0 (fst st, 0) ;;
  let articles := fst p in
  let dayTotal := snd p in
  let avgSentiment := dayTotal / inject_Z numArticles in
  ret (articles,
       snd st ++ [ {| date := dateStr;
                      avg_sentiment := toFixed3 avgSentiment;
                      article_count := numArticles;
                      positive_count := countOn dateStr isPositive articles;
                      negative_count := countOn dateStr isNegative articles;
                      neutral_count := countOn dateStr isNeutral articles;
                      moving_avg := None |} ]).

(** [for (let day = ...; day < 14; day++)], with [todo] iterations left. *)
Fixpoint dayLoop (todo day : nat) (st : list Article * list DailyStat)
  : Gen (list Article * list DailyStat) :=
  match todo with
  | O => ret st
  | S todo' => st' <- dayBody day st ;; dayLoop todo' (S day) st'
  end.

(** [dailyStats[i].moving_avg = v]. *)
Definition setMovingAvg (v : Q) (d : DailyStat) : DailyStat :=
  {| date := date d;
     avg_sentiment := avg_sentiment d;
     article_count := article_count d;
     positive_count := positive_count d;
     negative_count := negative_count d;
     neutral_count := neutral_count d;
     moving_avg := Some v |}.

(** Body of the moving-average loop (lines 119-121). *)
Definition movingAvgStep (dailyStats : list DailyStat) (i : nat) : list DailyStat :=
  let window :=
    slice (Z.to_nat (Z.max 0 (Z.of_nat i - 6))) (i + 1) dailyStats in
  let avg :=
    fold_left (fun sum d => sum + avg_sentiment d) window 0
    / inject_Z (Z.of_nat (length window)) in
  update i (setMovingAvg (toFixed3 avg)) dailyStats.

Definition movingAvgLoop (dailyStats : list DailyStat) : list DailyStat :=
  fold_left movingAvgStep (seq 0 (length dailyStats)) dailyStats.

(** [sourceMap]: a JS object used as a map; [Object.entries] lists its
    string keys in insertion order, so it is kept as an association
    list. *)
Record SourceAcc : Type := { scores : list Q; count : Z }.

Fixpoint getKey (k : string) (m : list (string * SourceAcc)) : option SourceAcc :=
  match m with
  | [] => None
  | (k', v) :: m' => if String.eqb k k' then Some v else getKey k m'
  end.

Fixpoint setKey (k : string) (v : SourceAcc) (m : list (string * SourceAcc))
  : list (string * SourceAcc) :=
  match m with
  | [] => [(k, v)]
  | (k', v') :: m' =>
      if String.eqb k k' then (k, v) :: m' else (k', v') :: setKey k v m'
  end.

(** Body of [articles.forEach] (lines 127-131). *)
Definition addToSourceMap (sourceMap : list (string * SourceAcc)) (article : Article)
  : list (string * SourceAcc) :=
  let sourceMap1 :=
    match getKey (source article) sourceMap with
    | None => setKey (source article) {| scores := []; count := 0 |} sourceMap
    | Some _ => sourceMap
    end in
  match getKey (source article) sourceMap1 with
  | Some acc =>
      setKey (source article)
        {| scores := scores acc ++ [sentiment_score article];
           count := (count acc + 1)%Z |} sourceMap1
  | None => sourceMap1
  end.

(** The callback of [Object.entries(sourceMap).map] (lines 134-140). *)
Definition toSourceStat (entry : string * SourceAcc) : SourceStat :=
  let data := snd entry in
  {| ss_source := fst entry;
     ss_avg_sentiment := toFixed3 (mean (scores data));
     ss_article_count := count data;
     ss_sentiment_label := labelOf (mean (scores data)) |}.

Definition sourceStatsOf (articles : list Article) : list SourceStat :=
  sortBy (fun a b => (ss_article_count b - ss_article_count a)%Z)
    (map toSourceStat (fold_left addToSourceMap articles [])).

(** The state of [articles] and [dailyStats] when the outer loop exits,
    and the number of random draws consumed. *)
Definition generated : (list Article * list DailyStat) * nat :=
  dayLoop 14 0 ([], []) 0%nat.

Definition getSampleData : Snapshot :=
  let articles := fst (fst generated) in
  let dailyStats := movingAvgLoop (rev (snd (fst generated))) in
  let sourceStats := sourceStatsOf articles in
  let overallSentiment :=
    fold_left (fun sum a => sum + sentiment_score a) articles 0
    / inject_Z (Z.of_nat (length articles)) in
  {| last_updated := now;
     total_articles := Z.of_nat (length articles);
     overall_sentiment := toFixed3 overallSentiment;
     overall_label := labelOf overallSentiment;
     daily_stats := dailyStats;
     source_stats := sourceStats;
     articles := sortBy (fun a b => (published b - published a)%Z) articles |}.

End SampleData.

(** ** The generator, day by day

    A closed description of what the two nested loops leave behind, used
    to state and prove the properties below: which draws each day
    consumes, which articles it pushes and which statistics it records. *)

Section Days.

Variable now : Z.
Variable rand : nat -> Q.

(** [numArticles] as drawn by call number [k]. *)
Definition numArticlesAt (k : nat) : Z := (4 + Qfloor (rand k * 5))%Z.

(** Number of [Math.random()] calls made before day [day] starts. *)
Fixpoint dayStart (day : nat) : nat :=
  match day with
  | O => O
  | S d => S (dayStart d) + 4 * Z.to_nat (numArticlesAt (dayStart d))
  end.

(** [date.getTime()] in iteration [day] of the outer loop. *)
Definition dateOf (day : nat) : Z := (now - Z.of_nat day * msPerDay)%Z.

(** The articles pushed by [todo] consecutive iterations of the inner
    loop starting at index [i] and draw [k], each with its unrounded
    sentiment. *)
Fixpoint dayArticles (date : Z) (day todo i k : nat) : list (Article * Q) :=
  match todo with
  | O => []
  | S todo' =>
      fst (newArticle rand date day i k) :: dayArticles date day todo' (S i) (4 + k)
  end.

(** The articles of day [day]. *)
Definition dayList (day : nat) : list (Article * Q) :=
  dayArticles (dateOf day) day (Z.to_nat (numArticlesAt (dayStart day))) 0
    (S (dayStart day)).

(** The [articles] array after [days] iterations of the outer loop. *)
Definition articlesAfter (days : nat) : list Article :=
  flat_map (fun d => map fst (dayList d)) (seq 0 days).

(** The DailyStat pushed by iteration [day]. *)
Definition statOf (day : nat) : DailyStat :=
  let dateStr := isoDate (dateOf day) in
  let numArticles := numArticlesAt (dayStart day) in
  let articles := articlesAfter (S day) in
  {| date := dateStr;
     avg_sentiment :=
       toFixed3 (fold_left Qplus (map snd (dayList day)) 0 / inject_Z numArticles);
     article_count := numArticles;
     positive_count := countOn dateStr isPositive articles;
     negative_count := countOn dateStr isNegative articles;
     neutral_count := countOn dateStr isNeutral articles;
     moving_avg := None |}.

End Days.

(** ** [useSentimentData]

    The hook keeps three pieces of state and runs [fetchData] once.  The
    outcome of the network request is an input; [fetchData] is the
    sequence of state-setter calls it makes, and a render may observe the
    state after any number of them. *)

(** A parsed JSON document: what [response.json()] resolves to. *)
#[warnings="-register-all"]
Inductive json : Type :=
| JNull
| JBool (b : bool)
| JNumber (q : Q)
| JString (s : string)
| JArray (items : list json)
| JObject (members : list (string * json)).

(** The value held in [data]: the parsed document (initially [null]) or
    the object built by [getSampleData]. *)
Inductive Data : Type :=
| Parsed (j : json)
| Sample (s : Snapshot).

Definition isNull (d : Data) : bool :=
  match d with
  | Parsed JNull => true
  | _ => false
  end.

Record HookState : Type := {
  data : Data;
  loading : bool;
  error : option string
}.

(** [useState(null)], [useState(true)], [useState(null)]. *)
Definition initialState : HookState :=
  {| data := Parsed JNull; loading := true; error := None |}.

(** How the body of an OK response parses. *)
Inductive BodyOutcome : Type :=
| BodyParsed (j : json)
| BodyRejected (message : string).

(** How [fetch] settles: it rejects with an error, or it resolves to a
    response with its [ok] flag and body. *)
Inductive FetchOutcome : Type :=
| FetchRejected (message : string)
| Responded (ok : bool) (body : BodyOutcome).

Inductive Action : Type :=
| SetData (d : Data)
| SetLoading (b : bool)
| SetError (e : option string).

Definition applyAction (st : HookState) (a : Action) : HookState :=
  match a with
  | SetData d => {| data := d; loading := loading st; error := error st |}
  | SetLoading b => {| data := data st; loading := b; error := error st |}
  | SetError e => {| data := data st; loading := loading st; error := e |}
  end.

(** Whether control reaches the [catch] block. *)
Definition failed (o : FetchOutcome) : bool :=
  match o with
  | Responded true (BodyParsed _) => false
  | _ => true
  end.

Section Hook.

(** The clock and the random draws seen by [getSampleData] if it is
    called. *)
Variable now : Z.
Variable rand : nat -> Q.

(** The [catch] block (lines 25-28). *)
Definition catchBlock (message : string) : list Action :=
  [SetError (Some message); SetData (Sample (getSampleData now rand))].

(** The setter calls of [fetchData] (lines 14-31), in order. *)
Definition fetchData (o : FetchOutcome) : list Action :=
  [SetLoading true]
  ++ match o with
     | FetchRejected message => catchBlock message
     | Responded false _ => catchBlock "Failed to fetch sentiment data"
     | Responded true (BodyRejected message) => catchBlock message
     | Responded true (BodyParsed jsonData) =>
         [SetData (Parsed jsonData); SetError None]
     end
  ++ [SetLoading false].

(** The state a render sees after the first [n] setter calls. *)
Definition stateAfter (n : nat) (o : FetchOutcome) : HookState :=
  fold_left applyAction (firstn n (fetchData o)) initialState.

End Hook.

(** ** The article computation in binary64

    The same arithmetic as lines 89-98 on the kernel's binary64 numbers,
    used to evaluate the boundary cases in the number type of
    JavaScript. *)

(** The rational number that a finite binary64 number denotes. *)
Definition exactValue (f : float) : Q :=
  match Prim2SF f with
  | S754_finite negative m e =>
      let magnitude :=
        if (0 <=? e)%Z then inject_Z (Z.pos m * 2 ^ e)
        else inject_Z (Z.pos m) / inject_Z (2 ^ (- e)) in
      if negative then - magnitude else magnitude
  | _ => 0
  end.

(** The binary64 number of an integer below 2^63 in magnitude. *)
Definition floatOfZ (n : Z) : float :=
  if (0 <=? n)%Z then PrimFloat.of_uint63 (Uint63.of_Z n)
  else PrimFloat.opp (PrimFloat.of_uint63 (Uint63.of_Z (- n))).

(** [parseFloat(x.toFixed(3))]: [toFixed] picks the integer [n] from the
    exact value of [x], and [parseFloat] returns the binary64 number
    nearest to [n / 1000], which is what the correctly rounded division
    computes. *)
#[warnings="-inexact-float"]
Definition toFixed3Binary64 (x : float) : float :=
  (floatOfZ (roundHalfAway (exactValue x * 1000)) / 1000)%float.

#[warnings="-inexact-float"]
Definition labelOfBinary64 (x : float) : Label :=
  if (0.2 <? x)%float then Positive
  else if (x <? -0.2)%float then Negative
  else Neutral.

(** [sentiment] of lines 89-90 for a headline sentiment [h] and a draw
    [r]. *)
#[warnings="-inexact-float"]
Definition sentimentBinary64 (h r : float) : float :=
  let variation := ((r - 0.5) * 0.3)%float in
  let low := if (1 <=? h + variation)%float then 1%float else (h + variation)%float in
  if (-1 <=? low)%float then low else (-1)%float.

(** ** Reference notions used in the statements *)

(** The mean of [avg_sentiment] over the entries of [stats] at indices
    [max(0, i - 6)] to [i] inclusive, read index by index. *)
Definition windowMean (stats : list DailyStat) (i : nat) : Q :=
  let lo := Nat.max 0 (i - 6) in
  mean (map (fun j => nth j (map avg_sentiment stats) 0) (seq lo (S i - lo))).

(** A list paired with the positions of its elements, counted from [a]. *)
Definition indexed {A : Type} (a : nat) (l : list A) : list (nat * A) :=
  combine (seq a (length l)) l.

(** [source_stats] ordered by [article_count] descending, ties broken by
    source name ascending. *)
Definition countThenName (a b : SourceStat) : Prop :=
  (ss_article_count a > ss_article_count b)%Z \/
  (ss_article_count a = ss_article_count b /\
   String.leb (ss_source a) (ss_source b) = true).

(** Two Snapshots that agree in every field except [last_updated]. *)
Definition sameExceptLastUpdated (s1 s2 : Snapshot) : Prop :=
  total_articles s1 = total_articles s2 /\
  overall_sentiment s1 = overall_sentiment s2 /\
  overall_label s1 = overall_label s2 /\
  daily_stats s1 = daily_stats s2 /\
  source_stats s1 = source_stats s2 /\
  articles s1 = articles s2.

(** The generator makes at most 33 draws a day: one for [numArticles]
    and four for each of at most eight articles. *)
Definition maxDraws : nat := 14 * 33.

(** No two articles of the list have the same headline and source but
    different links. *)
Definition oneArticlePerStory (l : list Article) : Prop :=
  forall i j a b,
    nth_error l i = Some a -> nth_error l j = Some b ->
    headline a = headline b -> source a = source b -> link a = link b.

(** No two articles of the list share a link. *)
Definition oneArticlePerLink (l : list Article) : Prop := NoDup (map link l).

(** Whether the links of days 0 to 13 and indices 0 to 7 are pairwise
    different, decided by comparing them all. *)
Definition linksDistinct : bool :=
  forallb (fun d => forallb (fun i => forallb (fun d' => forallb (fun i' =>
    implb (String.eqb (articleLink d i) (articleLink d' i'))
          ((d =? d')%nat && (i =? i')%nat))
    (seq 0 8)) (seq 0 14)) (seq 0 8)) (seq 0 14).

(** The articles of a list that were published on a given UTC date. *)
Definition publishedOn (dateStr : Z) (l : list Article) : list Article :=
  filter (fun a => startsWith (published a) dateStr) l.

(** The articles of a list that carry a given source. *)
Definition bySource (src : string) (l : list Article) : list Article :=
  filter (fun a => String.eqb (source a) src) l.

(** What [sourceMap] should hold under a key once the articles of a list
    have been recorded: nothing if no article has that source, otherwise
    their scores in order and their number. *)
Definition expectedAcc (src : string) (l : list Article) : option SourceAcc :=
  match bySource src l with
  | [] => None
  | group => Some {| scores := map sentiment_score group;
                     count := Z.of_nat (length group) |}
  end.

(** The sum of a list of integers. *)
Definition sumZ (l : list Z) : Z := fold_right Z.add 0%Z l.

(** ** The views

    What the components compute from a Snapshot before they draw:
    [App.jsx], [LiveFeed.jsx], [LineChart.jsx] and the
    [useScrollProgress] hook. *)

(** An index argument of [Array.prototype.slice] for an array of [len]
    elements: a negative index counts from the end, and the result is
    kept within the array. *)
Definition relativeIndex (i len : Z) : nat :=
  Z.to_nat (if (i <? 0)%Z then Z.max (len + i) 0 else Z.min i len).

(** [arr.slice(start, end)] for integers [start] and [end]. *)
Definition jsSlice {A : Type} (start end_ : Z) (l : list A) : list A :=
  let len := Z.of_nat (length l) in
  slice (relativeIndex start len) (relativeIndex end_ len) l.

(** [Math.round((score + 1) * 50)] of [App.jsx]: [Math.round] is the
    floor of its argument plus one half. *)
Definition scoreToPercentage (score : Q) : Z :=
  Qfloor ((score + 1) * 50 + (1 # 2)).

(** [data.daily_stats.slice(-7)], the cards under "Last 7 Days". *)
Definition lastSevenDays (s : Snapshot) : list DailyStat :=
  jsSlice (-7) (Z.of_nat (length (daily_stats s))) (daily_stats s).

(** [data.source_stats.slice(0, 8)], the rows under "Top Sources". *)
Definition topSources (s : Snapshot) : list SourceStat :=
  jsSlice 0 8 (source_stats s).

(** [d.moving_avg || d.avg_sentiment], the value that the area and the
    trend line of [LineChart] plot: [||] passes over an absent and over a
    zero [moving_avg]. *)
Definition plottedValue (d : DailyStat) : Q :=
  match moving_avg d with
  | Some v => if Qeq_bool v 0 then avg_sentiment d else v
  | None => avg_sentiment d
  end.

(** Rendering of an integer inside a template literal. *)
Definition showZ (n : Z) : string := NilZero.string_of_int (Z.to_int n).

(** [formatTimeAgo] of [LiveFeed] at clock reading [now]; [date] is the
    instant that [new Date(dateString)] denotes, or [None] for an
    Invalid Date, with which every comparison is false and which renders
    as [NaN]. *)
Definition formatTimeAgo (now : Z) (date : option Z) : string :=
  match date with
  | None => "NaNd"%string
  | Some date =>
      let diffMs := (now - date)%Z in
      let diffMins := (diffMs / 60000)%Z in
      let diffHours := (diffMs / 3600000)%Z in
      let diffDays := (diffMs / 86400000)%Z in
      if (diffMins <? 60)%Z then (showZ diffMins ++ "m")%string
      else if (diffHours <? 24)%Z then (showZ diffHours ++ "h")%string
      else (showZ diffDays ++ "d")%string
  end.

(** The button under the headlines. *)
Inductive Button : Type :=
| ShowLess
| ShowMore (n : Z).

(** What [LiveFeed] renders: the placeholder, or the displayed articles
    and the button if there is one. *)
Inductive FeedView : Type :=
| LoadingHeadlines
| Headlines (displayArticles : list Article) (button : option Button).

(** [LiveFeed({ articles, limit })] in state [expanded]; [articles] is
    [None] when the property is null or undefined. *)
Definition LiveFeed (articles : option (list Article)) (limit : Z) (expanded : bool)
  : FeedView :=
  match articles with
  | None => LoadingHeadlines
  | Some [] => LoadingHeadlines
  | Some articles =>
      let len := Z.of_nat (length articles) in
      let displayArticles :=
        if expanded then jsSlice 0 30 articles else jsSlice 0 limit articles in
      Headlines displayArticles
        (if (limit <? len)%Z
         then Some (if expanded then ShowLess else ShowMore (Z.min 30 len - limit))
         else None)
  end.

Definition displayed (v : FeedView) : list Article :=
  match v with
  | LoadingHeadlines => []
  | Headlines displayArticles _ => displayArticles
  end.

Definition buttonOf (v : FeedView) : option Button :=
  match v with
  | LoadingHeadlines => None
  | Headlines _ button => button
  end.

(** [ref.current.getBoundingClientRect()]. *)
Record DOMRect : Type := { top : Q; bottom : Q; height : Q }.

(** The state of [useScrollProgress]. *)
Record ScrollState : Type := { progress : Q; isVisible : bool }.

(** [useState(0)], [useState(false)]. *)
Definition initialScroll : ScrollState := {| progress := 0; isVisible := false |}.

(** [handleScroll] of [useScrollProgress]; [current] is [None] when
    [ref.current] is null.  (The three [visible...] constants of the
    source are computed and never read.) *)
Definition handleScroll (current : option DOMRect) (windowHeight : Q) (st : ScrollState)
  : ScrollState :=
  match current with
  | None => st
  | Some rect =>
      let elementHeight := height rect in
      let visible := Qlt_bool (top rect) windowHeight && Qlt_bool 0 (bottom rect) in
      if visible then
        let scrollProgress :=
          JSmin 1 (JSmax 0 ((windowHeight - top rect) / (windowHeight + elementHeight))) in
        {| progress := scrollProgress; isVisible := visible |}
      else {| progress := progress st; isVisible := visible |}
  end.

(** The state after a series of scroll events, each with the rectangle
    and the window height that [handleScroll] reads. *)
Definition scrolled (events : list (option DOMRect * Q)) : ScrollState :=
  fold_left (fun st e => handleScroll (fst e) (snd e) st) events initialScroll.

(** ** Reference notions for the views *)

(** A stored label goes with a stored score when it is the class of the
    score, or when the score is exactly at a threshold and the label is
    the class beyond it. *)
Definition labelsAgree (stored : Label) (score : Q) : Prop :=
  labelOf score = stored \/
  (score == 0.2 /\ stored = Positive) \/
  (score == -0.2 /\ stored = Negative).

(** What the DOM promises of the rectangle of a scroll event: its bottom
    edge is its top edge plus its height. *)
Definition rectConsistent (e : option DOMRect * Q) : Prop :=
  match fst e with
  | None => True
  | Some rect => bottom rect == top rect + height rect
  end.

(** The time-ago text of article [i] of the day [day] days before the
    clock. *)
Definition expectedTimeAgo (day i : nat) : string :=
  match day, i with
  | O, O => "0m"%string
  | O, _ => (showZ (Z.of_nat i) ++ "h")%string
  | _, _ => (showZ (Z.of_nat day) ++ "d")%string
  end.

(** ** Concrete runs

    Clock readings and draw sequences at which the model is evaluated.
    The draws keep every value away from a rounding tie and from the
    thresholds, so exact and binary64 arithmetic give the same
    Snapshots. *)

(** 2023-11-14T22:13:20.000Z. *)
Definition clock : Z := 1700000000000.

(** Every draw is 0: four articles a day, all with the first headline and
    the first source. *)
Definition randZero : nat -> Q := fun _ => 0.

(** Every draw is 0.5: six articles a day. *)
Definition randHalf : nat -> Q := fun _ => 0.5.

(** The first two articles draw the headline of sentiment 0.12 and the
    variations 0.0804 and 0.0798; every other draw is 0. *)
Definition randBoundary : nat -> Q :=
  fun k =>
    match k with
    | 1%nat => 0.2
    | 3%nat => 0.768
    | 5%nat => 0.2
    | 7%nat => 0.766
    | _ => 0
    end.

(** The first article draws the variation -0.147; every other draw is 0. *)
Definition randOneOff : nat -> Q :=
  fun k => if (k =? 3)%nat then 0.01 else 0.

(** The first 221 draws (days 0 to 12) are 0, the later ones 0.05. *)
Definition randLastDay : nat -> Q :=
  fun k => if (221 <=? k)%nat then 0.05 else 0.

(** The first 119 draws (days 0 to 6) are 0.1, the later ones 0. *)
Definition randTwoSources : nat -> Q :=
  fun k => if (k <? 119)%nat then 0.1 else 0.

(** The first 462 draws are 0, the later ones 0.5. *)
Definition randZeroThenHalf : nat -> Q :=
  fun k => if (k <? 462)%nat then 0 else 0.5.

(** The last entry of [daily_stats] (the day of [clock]) in the run
    [clock], [randOneOff]. *)
Definition todayOneOff : DailyStat :=
  {| date := 19675;
     avg_sentiment := 0.601;
     article_count := 4;
     positive_count := 4;
     negative_count := 0;
     neutral_count := 0;
     moving_avg := Some 0.600 |}.

(** 2023-11-14T00:30:00.000Z. *)
Definition clockAfterMidnight : Z := 1699921800000.

(** The third entry of [daily_stats] in the run [clock], [randLastDay]. *)
Definition thirdDay : DailyStat :=
  {| date := 19664;
     avg_sentiment := 0.600;
     article_count := 4;
     positive_count := 4;
     negative_count := 0;
     neutral_count := 0;
     moving_avg := Some 0.628 |}.

(** * Properties *)

(** ** Rational arithmetic and rounding *)

Lemma Qlt_bool_iff (a b : Q) : Qlt_bool a b = true <-> a < b.
Proof.
  unfold Qlt_bool. rewrite negb_true_iff.
  split; intro H.
  - apply Qnot_le_lt. intro Hle. apply Qle_bool_iff in Hle. congruence.
  - destruct (Qle_bool b a) eqn:E; [|reflexivity].
    apply Qle_bool_iff in E. lra.
Qed.

Lemma Qlt_bool_comp (a b a' b' : Q) :
  a == a' -> b == b' -> Qlt_bool a b = Qlt_bool a' b'.
Proof. intros Ha Hb. unfold Qlt_bool. now rewrite Ha, Hb. Qed.

Lemma roundHalfAway_comp (x y : Q) : x == y -> roundHalfAway x = roundHalfAway y.
Proof.
  intro H. unfold roundHalfAway. rewrite H.
  destruct (Qle_bool 0 y); [|f_equal]; apply Qfloor_comp; now rewrite H.
Qed.

Lemma toFixed3_comp (x y : Q) : x == y -> toFixed3 x = toFixed3 y.
Proof.
  intro H. unfold toFixed3. f_equal. apply roundHalfAway_comp. now rewrite H.
Qed.

Lemma labelOf_comp (x y : Q) : x == y -> labelOf x = labelOf y.
Proof.
  intro H. unfold labelOf.
  rewrite (Qlt_bool_comp 0.2 x 0.2 y), (Qlt_bool_comp x (-0.2) y (-0.2));
    auto; reflexivity.
Qed.

(** Rounding to the nearest integer moves a number by at most one half. *)
Lemma roundHalfAway_error (x : Q) :
  x - (1 # 2) <= inject_Z (roundHalfAway x) /\ inject_Z (roundHalfAway x) <= x + (1 # 2).
Proof.
  unfold roundHalfAway. destruct (Qle_bool 0 x) eqn:E.
  - pose proof (Qfloor_le (x + (1 # 2))) as Hlo.
    pose proof (Qlt_floor (x + (1 # 2))) as Hhi.
    rewrite inject_Z_plus in Hhi. change (inject_Z 1) with 1 in Hhi. lra.
  - pose proof (Qfloor_le (- x + (1 # 2))) as Hlo.
    pose proof (Qlt_floor (- x + (1 # 2))) as Hhi.
    rewrite inject_Z_plus in Hhi. change (inject_Z 1) with 1 in Hhi.
    rewrite inject_Z_opp. lra.
Qed.

(** [toFixed(3)] moves a number by at most 0.0005. *)
Lemma toFixed3_error (x : Q) :
  x - (1 # 2000) <= toFixed3 x /\ toFixed3 x <= x + (1 # 2000).
Proof.
  unfold toFixed3. destruct (roundHalfAway_error (x * 1000)) as [Hlo Hhi].
  rewrite (Qmake_Qdiv (roundHalfAway (x * 1000)) 1000).
  change (inject_Z (Z.pos 1000)) with 1000. split.
  - apply Qle_shift_div_l; [reflexivity|lra].
  - apply Qle_shift_div_r; [reflexivity|lra].
Qed.

Lemma sumQ_from (xs : list Q) (a : Q) : fold_left Qplus xs a == a + sumQ xs.
Proof.
  unfold sumQ. revert a. induction xs as [|x xs IH]; intro a; simpl.
  - lra.
  - rewrite IH, (IH (0 + x)). lra.
Qed.

Lemma sumQ_cons (x : Q) (xs : list Q) : sumQ (x :: xs) == x + sumQ xs.
Proof. unfold sumQ at 1. simpl. rewrite sumQ_from. lra. Qed.

Lemma sumQ_Permutation (xs ys : list Q) : Permutation xs ys -> sumQ xs == sumQ ys.
Proof.
  induction 1 as [|x l l' _ IH|x y l|l l' l'' _ IH1 _ IH2].
  - reflexivity.
  - rewrite !sumQ_cons, IH. reflexivity.
  - rewrite !sumQ_cons. lra.
  - now rewrite IH1.
Qed.

Lemma mean_Permutation (xs ys : list Q) : Permutation xs ys -> mean xs == mean ys.
Proof.
  intro H. unfold mean.
  rewrite (sumQ_Permutation _ _ H), (Permutation_length H). reflexivity.
Qed.

(** The [reduce] over records is the sum of the projected field. *)
Lemma fold_left_field {A : Type} (f : A -> Q) (l : list A) (a : Q) :
  fold_left (fun sum d => sum + f d) l a = fold_left Qplus (map f l) a.
Proof. revert a. induction l as [|x l IH]; intro a; simpl; [reflexivity|apply IH]. Qed.

(** ** Sorting *)

Section Sorting.

Context {A : Type} (key : A -> Z).

Let byKeyDesc (a b : A) : Z := (key b - key a)%Z.

Lemma insertBy_Permutation (cmp : A -> A -> Z) (x : A) (l : list A) :
  Permutation (insertBy cmp x l) (x :: l).
Proof.
  induction l as [|y l IH]; simpl.
  - reflexivity.
  - destruct (cmp x y <=? 0)%Z.
    + reflexivity.
    + rewrite IH. apply perm_swap.
Qed.

Lemma sortBy_Permutation (cmp : A -> A -> Z) (l : list A) :
  Permutation (sortBy cmp l) l.
Proof.
  induction l as [|x l IH]; simpl.
  - reflexivity.
  - rewrite insertBy_Permutation. now constructor.
Qed.

Lemma insertBy_descending (x : A) (l : list A) :
  StronglySorted (fun a b => (key a >= key b)%Z) l ->
  StronglySorted (fun a b => (key a >= key b)%Z) (insertBy byKeyDesc x l).
Proof.
  induction 1 as [|y l Hs IH Hy]; simpl.
  - repeat constructor.
  - unfold byKeyDesc at 1. destruct (Z.leb_spec (key y - key x) 0) as [Hle|Hgt].
    + constructor; [now constructor|].
      constructor; [lia|].
      eapply Forall_impl; [|exact Hy]. simpl. intros z Hz. lia.
    + constructor; [exact IH|].
      eapply Permutation_Forall; [symmetry; apply insertBy_Permutation|].
      constructor; [lia|exact Hy].
Qed.

Lemma sortBy_descending (l : list A) :
  StronglySorted (fun a b => (key a >= key b)%Z) (sortBy byKeyDesc l).
Proof.
  induction l as [|x l IH]; simpl.
  - constructor.
  - now apply insertBy_descending.
Qed.

End Sorting.

(** ** The loops of [getSampleData] in closed form *)

Section Loops.

Variable now : Z.
Variable rand : nat -> Q.

Lemma newArticle_counter (date : Z) (day i k : nat) :
  snd (newArticle rand date day i k) = (4 + k)%nat.
Proof. reflexivity. Qed.

Lemma articleLoop_spec (date : Z) (day todo : nat) :
  forall (i : nat) (st : list Article * Q) (k : nat),
    articleLoop rand date day todo i st k =
    ((fst st ++ map fst (dayArticles rand date day todo i k),
      fold_left Qplus (map snd (dayArticles rand date day todo i k)) (snd st)),
     (4 * todo + k)%nat).
Proof.
  induction todo as [|todo IH]; intros i [arts total] k.
  - simpl. unfold ret. now rewrite app_nil_r.
  - cbn [articleLoop dayArticles]. unfold bind at 1.
    destruct (newArticle rand date day i k) as [p k'] eqn:E.
    assert (Hk : k' = (4 + k)%nat)
      by (rewrite <- (newArticle_counter date day i k), E; reflexivity).
    subst k'. rewrite IH. cbn [fst snd map fold_left].
    rewrite <- app_assoc. cbn [app]. f_equal. lia.
Qed.

Lemma dayBody_spec (day : nat) (st : list Article * list DailyStat) :
  fst st = articlesAfter now rand day ->
  dayBody now rand day st (dayStart rand day) =
  ((articlesAfter now rand (S day), snd st ++ [statOf now rand day]),
   dayStart rand (S day)).
Proof.
  intro Harts. unfold dayBody, bind, random, ret. cbv beta iota zeta.
  rewrite articleLoop_spec. cbn [fst snd].
  fold (numArticlesAt rand (dayStart rand day)). fold (dateOf now day).
  fold (dayList now rand day).
  assert (Hnext : fst st ++ map fst (dayList now rand day) = articlesAfter now rand (S day)).
  { unfold articlesAfter. rewrite seq_S, flat_map_app. cbn [flat_map Nat.add].
    rewrite app_nil_r. now rewrite Harts. }
  rewrite Hnext. unfold statOf. cbn [dayStart]. f_equal. lia.
Qed.

Lemma dayLoop_spec (todo : nat) :
  forall (day : nat) (st : list Article * list DailyStat),
    fst st = articlesAfter now rand day ->
    dayLoop now rand todo day st (dayStart rand day) =
    ((articlesAfter now rand (todo + day),
      snd st ++ map (statOf now rand) (seq day todo)),
     dayStart rand (todo + day)).
Proof.
  induction todo as [|todo IH]; intros day [arts stats] Harts.
  - cbn in *. unfold ret. now rewrite app_nil_r, Harts.
  - cbn [dayLoop]. unfold bind. rewrite (dayBody_spec day (arts, stats) Harts).
    rewrite IH by reflexivity. cbn [fst snd seq map].
    rewrite <- app_assoc. cbn [app]. now rewrite Nat.add_succ_r.
Qed.

Lemma generated_spec :
  generated now rand =
  ((articlesAfter now rand 14, map (statOf now rand) (seq 0 14)), dayStart rand 14).
Proof. exact (dayLoop_spec 14 0 ([], []) eq_refl). Qed.

End Loops.

(** ** The moving-average loop *)

Lemma update_app {A : Type} (f : A -> A) (done : list A) (x : A) (rest : list A) :
  update (length done) f (done ++ x :: rest) = done ++ f x :: rest.
Proof. induction done as [|y done IH]; simpl; [reflexivity|now rewrite IH]. Qed.

Lemma slice_seq {A : Type} (d : A) (l : list A) :
  forall lo n, (lo + n <= length l)%nat ->
    slice lo (lo + n) l = map (fun j => nth j l d) (seq lo n).
Proof.
  unfold slice. induction l as [|x l IH]; intros lo n Hlen.
  - simpl in Hlen. assert (n = 0)%nat by lia. subst. now destruct lo.
  - replace (lo + n - lo)%nat with n in * by lia.
    destruct lo as [|lo].
    + destruct n as [|n]; [reflexivity|].
      cbn [skipn firstn seq map nth]. f_equal.
      specialize (IH 0%nat n). cbn [skipn Nat.add Nat.sub] in IH.
      rewrite Nat.sub_0_r in IH. rewrite IH by (simpl in Hlen; lia).
      rewrite <- seq_shift, map_map. reflexivity.
    + cbn [skipn]. specialize (IH lo n).
      replace (lo + n - lo)%nat with n in IH by lia.
      rewrite IH by (simpl in Hlen; lia).
      rewrite <- seq_shift, map_map. reflexivity.
Qed.

(** What one iteration computes is the window mean of the claim. *)
Lemma movingAvgStep_window (stats : list DailyStat) (i : nat) :
  (i < length stats)%nat ->
  movingAvgStep stats i =
  update i (setMovingAvg (toFixed3 (windowMean stats i))) stats.
Proof.
  intro Hi. unfold movingAvgStep, windowMean, mean, sumQ. do 3 f_equal.
  replace (Z.to_nat (Z.max 0 (Z.of_nat i - 6))) with (i - 6)%nat by lia.
  rewrite Nat.max_0_l.
  set (window := slice (i - 6) (i + 1) stats).
  rewrite fold_left_field, <- (length_map avg_sentiment window).
  assert (Hw : map avg_sentiment window =
               map (fun j => nth j (map avg_sentiment stats) 0)
                 (seq (i - 6) (S i - (i - 6)))).
  { unfold window, slice. rewrite <- firstn_map, <- skipn_map.
    replace (i + 1)%nat with ((i - 6) + (S i - (i - 6)))%nat by lia.
    apply (slice_seq 0). rewrite length_map. lia. }
  now rewrite Hw.
Qed.

Lemma windowMean_ext (l l' : list DailyStat) (i : nat) :
  map avg_sentiment l = map avg_sentiment l' -> windowMean l i = windowMean l' i.
Proof. intro H. unfold windowMean. now rewrite H. Qed.

(** The loop in closed form: entry [i] gets the rounded window mean and
    keeps its other fields. *)
Lemma movingAvgLoop_from (stats : list DailyStat) (rest : list DailyStat) :
  forall done : list DailyStat,
    map avg_sentiment (done ++ rest) = map avg_sentiment stats ->
    fold_left movingAvgStep (seq (length done) (length rest)) (done ++ rest) =
    done ++ map (fun p => setMovingAvg (toFixed3 (windowMean stats (fst p))) (snd p))
              (indexed (length done) rest).
Proof.
  unfold indexed. induction rest as [|x rest IH]; intros done Havg.
  - reflexivity.
  - cbn [length seq fold_left combine map fst snd].
    rewrite movingAvgStep_window by (rewrite length_app; simpl; lia).
    rewrite update_app, (windowMean_ext _ stats _ Havg).
    set (x' := setMovingAvg (toFixed3 (windowMean stats (length done))) x).
    specialize (IH (done ++ [x'])).
    rewrite <- app_assoc, length_app in IH. cbn [app length] in IH.
    rewrite Nat.add_1_r in IH. rewrite IH.
    + rewrite <- app_assoc. reflexivity.
    + rewrite <- Havg, !map_app. reflexivity.
Qed.

Lemma movingAvgLoop_spec (stats : list DailyStat) :
  movingAvgLoop stats =
  map (fun p => setMovingAvg (toFixed3 (windowMean stats (fst p))) (snd p))
    (indexed 0 stats).
Proof. exact (movingAvgLoop_from stats stats [] eq_refl). Qed.

Lemma indexed_map {A B : Type} (g : nat * A -> B) (f : A -> B) (l : list A) :
  (forall i x, g (i, x) = f x) ->
  forall a, map g (indexed a l) = map f l.
Proof.
  intro Hg. unfold indexed. induction l as [|x l IH]; intro a; simpl.
  - reflexivity.
  - now rewrite Hg, IH.
Qed.

Lemma indexed_nth_error {A B : Type} (g : nat * A -> B) (l : list A) :
  forall a i, nth_error (map g (indexed a l)) i =
              option_map (fun x => g ((a + i)%nat, x)) (nth_error l i).
Proof.
  unfold indexed. induction l as [|x l IH]; intros a i.
  - now destruct i.
  - destruct i as [|i]; cbn [length seq combine map nth_error option_map].
    + now rewrite Nat.add_0_r.
    + rewrite IH. now rewrite Nat.add_succ_r.
Qed.

(** The loop changes no field but [moving_avg]. *)
Lemma movingAvgLoop_field {B : Type} (f : DailyStat -> B) (stats : list DailyStat) :
  (forall v d, f (setMovingAvg v d) = f d) ->
  map f (movingAvgLoop stats) = map f stats.
Proof.
  intro Hf. rewrite movingAvgLoop_spec, map_map.
  apply (indexed_map _ f). intros i x. apply Hf.
Qed.

(** ** Properties of the Snapshot *)

Lemma isoDate_dateOf (now : Z) (day : nat) :
  isoDate (dateOf now day) = (isoDate now - Z.of_nat day)%Z.
Proof.
  unfold isoDate, dateOf.
  replace (now - Z.of_nat day * msPerDay)%Z
    with (now + (- Z.of_nat day) * msPerDay)%Z by lia.
  rewrite Z.div_add by (unfold msPerDay; lia). lia.
Qed.

Lemma StronglySorted_map_inv {A B : Type} (f : A -> B) (R : B -> B -> Prop) (l : list A) :
  StronglySorted R (map f l) -> StronglySorted (fun x y => R (f x) (f y)) l.
Proof.
  induction l as [|x l IH]; simpl; intro H.
  - constructor.
  - inversion H as [|? ? Hs Hall]; subst. constructor.
    + now apply IH.
    + rewrite Forall_map in Hall. exact Hall.
Qed.

Lemma daily_stats_dates (now : Z) (rand : nat -> Q) :
  map date (daily_stats (getSampleData now rand)) =
  rev (map (fun day => (isoDate now - Z.of_nat day)%Z) (seq 0 14)).
Proof.
  unfold getSampleData. cbn [daily_stats].
  rewrite movingAvgLoop_field by reflexivity.
  rewrite generated_spec. cbn [fst snd]. rewrite map_rev, map_map.
  f_equal. apply map_ext. intro day. cbn [statOf date]. apply isoDate_dateOf.
Qed.






(** C6, as amended: [source_stats] is ordered by [article_count]
    descending; ties are not reordered by source name. *)
Theorem source_stats_descending (now : Z) (rand : nat -> Q) :
  StronglySorted (fun a b => (ss_article_count a >= ss_article_count b)%Z)
    (source_stats (getSampleData now rand)).
Proof.
  unfold getSampleData, sourceStatsOf. cbn [source_stats].
  apply (sortBy_descending ss_article_count).
Qed.

(** C6, as stated, fails: in the run [clock], [randTwoSources] both
    sources have 28 articles and "The Verge" precedes "TechCrunch". *)
Lemma source_stats_ties_unordered :
  ~ StronglySorted countThenName (source_stats (getSampleData clock randTwoSources)).
Proof.
  intro H.
  assert (E : map (fun x => (ss_source x, ss_article_count x))
                (source_stats (getSampleData clock randTwoSources)) =
              [("The Verge"%string, 28%Z); ("TechCrunch"%string, 28%Z)])
    by (vm_compute; reflexivity).
  destruct (source_stats (getSampleData clock randTwoSources)) as [|a [|b rest]];
    try discriminate E.
  cbn [map] in E. injection E as Ea Ec Eb Ed _.
  inversion H as [|? ? _ Hall]; subst. inversion Hall as [|? ? Hab _]; subst.
  destruct Hab as [Hgt|[_ Hle]].
  - rewrite Ec, Ed in Hgt. lia.
  - rewrite Ea, Eb in Hle. vm_compute in Hle. discriminate Hle.
Qed.

(** ** Dependence on the random draws *)

Lemma numArticlesAt_bounds (rand : nat -> Q) (k : nat) :
  unitInterval rand -> (4 <= numArticlesAt rand k <= 8)%Z.
Proof.
  intro Hr. destruct (Hr k) as [H0 H1]. unfold numArticlesAt.
  assert (Hlo : (0 <= Qfloor (rand k * 5))%Z).
  { change 0%Z with (Qfloor 0). apply Qfloor_resp_le. lra. }
  assert (Hhi : (Qfloor (rand k * 5) < 5)%Z).
  { rewrite Zlt_Qlt. eapply Qle_lt_trans; [apply Qfloor_le|].
    change (inject_Z 5) with 5. lra. }
  lia.
Qed.

Lemma dayStart_bound (rand : nat -> Q) (day : nat) :
  unitInterval rand -> (dayStart rand day <= 33 * day)%nat.
Proof.
  intro Hr. induction day as [|day IH]; cbn [dayStart]; [lia|].
  pose proof (numArticlesAt_bounds rand (dayStart rand day) Hr). lia.
Qed.

Section Agreement.

Variable now : Z.
Variables rand1 rand2 : nat -> Q.
Hypothesis rand1_unit : unitInterval rand1.
Hypothesis agree : forall k, (k < maxDraws)%nat -> rand1 k = rand2 k.

Lemma dayStart_agree (day : nat) :
  (day <= 14)%nat -> dayStart rand1 day = dayStart rand2 day.
Proof.
  induction day as [|day IH]; intro Hd; cbn [dayStart]; [reflexivity|].
  rewrite <- IH by lia. unfold numArticlesAt.
  rewrite <- agree; [reflexivity|].
  pose proof (dayStart_bound rand1 day rand1_unit). unfold maxDraws. lia.
Qed.

Lemma dayArticles_agree (date : Z) (day todo : nat) :
  forall i k, (4 * todo + k <= maxDraws)%nat ->
    dayArticles rand1 date day todo i k = dayArticles rand2 date day todo i k.
Proof.
  induction todo as [|todo IH]; intros i k Hk; cbn [dayArticles]; [reflexivity|].
  rewrite IH by lia. f_equal.
  unfold newArticle, bind, random, ret. cbv beta iota zeta. cbn [fst].
  rewrite <- !agree by lia. reflexivity.
Qed.

Lemma dayList_agree (day : nat) :
  (day < 14)%nat -> dayList now rand1 day = dayList now rand2 day.
Proof.
  intro Hd. unfold dayList.
  rewrite <- (dayStart_agree day) by lia.
  assert (Hk : (dayStart rand1 day < maxDraws)%nat).
  { pose proof (dayStart_bound rand1 day rand1_unit). unfold maxDraws. lia. }
  unfold numArticlesAt at 2. rewrite <- agree by exact Hk.
  fold (numArticlesAt rand1 (dayStart rand1 day)).
  apply dayArticles_agree.
  pose proof (numArticlesAt_bounds rand1 (dayStart rand1 day) rand1_unit).
  pose proof (dayStart_bound rand1 day rand1_unit). unfold maxDraws. lia.
Qed.

Lemma articlesAfter_agree (days : nat) :
  (days <= 14)%nat -> articlesAfter now rand1 days = articlesAfter now rand2 days.
Proof.
  intro Hd. unfold articlesAfter.
  induction days as [|days IH]; [reflexivity|].
  rewrite seq_S, !flat_map_app, IH by lia. cbn [flat_map Nat.add].
  now rewrite dayList_agree by lia.
Qed.

Lemma statOf_agree (day : nat) :
  (day < 14)%nat -> statOf now rand1 day = statOf now rand2 day.
Proof.
  intro Hd. unfold statOf.
  rewrite <- (dayList_agree day), <- (articlesAfter_agree (S day)),
    <- (dayStart_agree day) by lia.
  unfold numArticlesAt. rewrite <- agree; [reflexivity|].
  pose proof (dayStart_bound rand1 day rand1_unit). unfold maxDraws. lia.
Qed.

Lemma generated_agree : fst (generated now rand1) = fst (generated now rand2).
Proof.
  rewrite !generated_spec. cbn [fst]. f_equal.
  - apply articlesAfter_agree. lia.
  - apply map_ext_in. intros day Hin. apply in_seq in Hin.
    apply statOf_agree. lia.
Qed.

End Agreement.



Lemma randZero_unit : unitInterval randZero.
Proof. intro k. unfold randZero. split; [apply Qle_refl|reflexivity]. Defined.


(** ** Labels and scores *)

(** C1: in the run [clock], [randBoundary] the first article has the
    stored score 0.200, which the threshold function maps to Neutral, and
    carries the label Positive: the label was computed from the unrounded
    sentiment 0.2004.  The daily counts, taken from the stored scores,
    disagree with the labels: the day has [positive_count] 2 and three
    articles labelled Positive. *)
Theorem label_disagrees_with_stored_score :
  option_map
    (fun a => (sentiment_score a, sentiment_label a, getSentimentInfo (sentiment_score a)))
    (nth_error (articles (getSampleData clock randBoundary)) 0)
  = Some (0.200, Positive, Neutral) /\
  option_map (fun d => (date d, positive_count d))
    (nth_error (daily_stats (getSampleData clock randBoundary)) 13)
  = Some (19675%Z, 2%Z) /\
  length (filter (fun a => match sentiment_label a with Positive => true | _ => false end)
            (publishedOn 19675 (articles (getSampleData clock randBoundary))))
  = 3%nat.
Proof. repeat split; vm_compute; reflexivity. Qed.

(** C5: in the run [clock], [randBoundary] the first two articles have
    the same stored score and different labels. *)
Theorem equal_scores_different_labels :
  exists a b,
    nth_error (articles (getSampleData clock randBoundary)) 0 = Some a /\
    nth_error (articles (getSampleData clock randBoundary)) 1 = Some b /\
    sentiment_score a = sentiment_score b /\
    sentiment_label a = Positive /\ sentiment_label b = Neutral.
Proof.
  do 2 eexists. split; [vm_compute; reflexivity|].
  split; [vm_compute; reflexivity|].
  repeat split.
Qed.

(** The two boundary articles of the run [randBoundary] in binary64: the
    unrounded sentiments lie on either side of 0.2, both are stored as
    0.2, and the labels differ. *)
#[warnings="-inexact-float"]
Lemma boundary_articles_binary64 :
  (0.2 <? sentimentBinary64 0.12 0.768)%float = true /\
  (sentimentBinary64 0.12 0.766 <? 0.2)%float = true /\
  toFixed3Binary64 (sentimentBinary64 0.12 0.768) = 0.2%float /\
  toFixed3Binary64 (sentimentBinary64 0.12 0.766) = 0.2%float /\
  labelOfBinary64 (sentimentBinary64 0.12 0.768) = Positive /\
  labelOfBinary64 (sentimentBinary64 0.12 0.766) = Neutral /\
  labelOfBinary64 (toFixed3Binary64 (sentimentBinary64 0.12 0.768)) = Neutral.
Proof. repeat split; vm_compute; reflexivity. Qed.

(** ** Links *)

Lemma linksDistinct_true : linksDistinct = true.
Proof. vm_compute. reflexivity. Qed.

Lemma articleLink_inj (d i d' i' : nat) :
  (d < 14)%nat -> (i < 8)%nat -> (d' < 14)%nat -> (i' < 8)%nat ->
  articleLink d i = articleLink d' i' -> d = d' /\ i = i'.
Proof.
  intros Hd Hi Hd' Hi' Heq.
  pose proof linksDistinct_true as H. unfold linksDistinct in H.
  rewrite forallb_forall in H. specialize (H d). rewrite in_seq in H.
  specialize (H ltac:(lia)).
  rewrite forallb_forall in H. specialize (H i). rewrite in_seq in H.
  specialize (H ltac:(lia)).
  rewrite forallb_forall in H. specialize (H d'). rewrite in_seq in H.
  specialize (H ltac:(lia)).
  rewrite forallb_forall in H. specialize (H i'). rewrite in_seq in H.
  specialize (H ltac:(lia)).
  rewrite Heq, String.eqb_refl in H. cbn [implb] in H.
  apply andb_true_iff in H. destruct H as [H1 H2].
  apply Nat.eqb_eq in H1, H2. now split.
Qed.

Lemma dayArticles_links (rand : nat -> Q) (date : Z) (day todo : nat) :
  forall i k,
    map (fun p => link (fst p)) (dayArticles rand date day todo i k) =
    map (articleLink day) (seq i todo).
Proof.
  induction todo as [|todo IH]; intros i k; cbn [dayArticles seq map].
  - reflexivity.
  - now rewrite IH.
Qed.

Lemma articlesAfter_links (now : Z) (rand : nat -> Q) (days : nat) :
  map link (articlesAfter now rand days) =
  flat_map (fun d => map (articleLink d)
                       (seq 0 (Z.to_nat (numArticlesAt rand (dayStart rand d)))))
    (seq 0 days).
Proof.
  unfold articlesAfter. rewrite flat_map_concat_map, concat_map, map_map.
  rewrite <- flat_map_concat_map. apply flat_map_ext. intro d.
  rewrite map_map. apply dayArticles_links.
Qed.

Lemma NoDup_links (n : nat -> nat) (days : nat) :
  (forall d, n d <= 8)%nat -> (days <= 14)%nat ->
  NoDup (flat_map (fun d => map (articleLink d) (seq 0 (n d))) (seq 0 days)).
Proof.
  intros Hn. induction days as [|days IH]; intro Hd.
  - constructor.
  - rewrite seq_S, flat_map_app. cbn [flat_map Nat.add]. rewrite app_nil_r.
    apply NoDup_app.
    + apply IH. lia.
    + apply Finite.Injective_map_NoDup_in; [|apply seq_NoDup].
      intros i i' Hi Hi' Heq. apply in_seq in Hi, Hi'.
      pose proof (Hn days).
      apply (articleLink_inj days i days i'); auto; lia.
    + intros x Hold Hnew.
      apply in_flat_map in Hold. destruct Hold as [d [Hdin Hx]].
      apply in_seq in Hdin. apply in_map_iff in Hx. destruct Hx as [i [<- Hi]].
      apply in_map_iff in Hnew. destruct Hnew as [i' [Heq Hi']].
      apply in_seq in Hi, Hi'. pose proof (Hn d). pose proof (Hn days).
      destruct (articleLink_inj days i' d i) as [E _]; auto; lia.
Qed.

(** C7, as amended: [getSampleData] removes no duplicates; every
    generated article is kept, and no two articles of a Snapshot share a
    link. *)
Theorem links_pairwise_distinct (now : Z) (rand : nat -> Q) :
  unitInterval rand -> oneArticlePerLink (articles (getSampleData now rand)).
Proof.
  intro Hunit. unfold oneArticlePerLink, getSampleData. cbn [articles].
  rewrite generated_spec. cbn [fst].
  eapply Permutation_NoDup.
  - apply Permutation_map. symmetry. apply sortBy_Permutation.
  - rewrite articlesAfter_links.
    apply (NoDup_links (fun d => Z.to_nat (numArticlesAt rand (dayStart rand d)))); [|lia].
    intro d. pose proof (numArticlesAt_bounds rand (dayStart rand d) Hunit). lia.
Qed.

Lemma links_pairwise_distinct_witness :
  oneArticlePerLink (articles (getSampleData clock randZero)).
Proof. apply (links_pairwise_distinct clock randZero). exact randZero_unit. Defined.

(** C7, as stated, fails: in the run [clock], [randZero] the first two
    articles have the same headline and source and different links. *)
Lemma same_story_kept_twice :
  ~ (oneArticlePerStory (articles (getSampleData clock randZero)) /\
     oneArticlePerLink (articles (getSampleData clock randZero))).
Proof.
  intros [H _].
  assert (E : map (fun a => (headline a, source a, link a))
                (firstn 2 (articles (getSampleData clock randZero))) =
              [("OpenAI Announces Major Breakthrough in AI Safety Research"%string,
                "TechCrunch"%string, "https://example.com/article-0-0"%string);
               ("OpenAI Announces Major Breakthrough in AI Safety Research"%string,
                "TechCrunch"%string, "https://example.com/article-0-1"%string)])
    by (vm_compute; reflexivity).
  destruct (articles (getSampleData clock randZero)) as [|a [|b rest]];
    try discriminate E.
  cbn [firstn map] in E. injection E as Eh Es El Eh' Es' El'.
  specialize (H 0%nat 1%nat a b eq_refl eq_refl).
  rewrite Eh, Eh', Es, Es', El, El' in H.
  specialize (H eq_refl eq_refl). discriminate H.
Qed.

(** ** Daily statistics *)

Lemma filter_andb {A : Type} (p q : A -> bool) (l : list A) :
  filter (fun a => p a && q a) l = filter q (filter p l).
Proof.
  induction l as [|x l IH]; simpl; [reflexivity|].
  destruct (p x); simpl; [|exact IH]. destruct (q x); now rewrite IH.
Qed.

Lemma filter_all {A : Type} (p : A -> bool) (l : list A) :
  Forall (fun a => p a = true) l -> filter p l = l.
Proof. induction 1 as [|x l Hx _ IH]; simpl; [reflexivity|]. now rewrite Hx, IH. Qed.

Lemma filter_none {A : Type} (p : A -> bool) (l : list A) :
  Forall (fun a => p a = false) l -> filter p l = [].
Proof. induction 1 as [|x l Hx _ IH]; simpl; [reflexivity|]. now rewrite Hx, IH. Qed.

Lemma Permutation_filter {A : Type} (p : A -> bool) (l l' : list A) :
  Permutation l l' -> Permutation (filter p l) (filter p l').
Proof.
  induction 1 as [|x l l' _ IH|x y l|l l' l'' _ IH1 _ IH2]; simpl.
  - constructor.
  - destruct (p x); [now constructor|exact IH].
  - destruct (p x), (p y); try reflexivity. apply perm_swap.
  - now transitivity (filter p l').
Qed.

Lemma Qlt_bool_false (a b : Q) : Qlt_bool a b = false <-> b <= a.
Proof.
  unfold Qlt_bool. rewrite negb_false_iff. apply Qle_bool_iff.
Qed.

Lemma Qle_bool_false (a b : Q) : Qle_bool a b = false <-> b < a.
Proof.
  rewrite <- Qlt_bool_iff. unfold Qlt_bool. now rewrite negb_true_iff.
Qed.

(** Boolean comparisons in the hypotheses, turned into inequalities. *)
Ltac q_bool :=
  repeat match goal with
  | H : Qlt_bool _ _ = true |- _ => apply Qlt_bool_iff in H
  | H : Qlt_bool _ _ = false |- _ => apply Qlt_bool_false in H
  | H : Qle_bool _ _ = true |- _ => apply Qle_bool_iff in H
  | H : Qle_bool _ _ = false |- _ => apply Qle_bool_false in H
  | H : Qabs _ <= _ |- _ => apply Qabs_Qle_condition in H; destruct H
  end.

(** Exactly one of the three tests of lines 110-112 holds of a score. *)
Lemma classify_exclusive (x : Q) :
  (Z.b2z (isPositive x) + Z.b2z (isNegative x) + Z.b2z (isNeutral x) = 1)%Z.
Proof.
  unfold isPositive, isNegative, isNeutral.
  destruct (Qlt_bool 0.2 x) eqn:Ep, (Qlt_bool x (-0.2)) eqn:En,
    (Qle_bool (Qabs x) 0.2) eqn:Eu; try reflexivity; exfalso; q_bool; try lra.
  assert (Hu : Qabs x <= 0.2) by (apply Qabs_Qle_condition; lra).
  lra.
Qed.

Lemma counts_partition (l : list Article) :
  (Z.of_nat (length (filter (fun a => isPositive (sentiment_score a)) l)) +
   Z.of_nat (length (filter (fun a => isNegative (sentiment_score a)) l)) +
   Z.of_nat (length (filter (fun a => isNeutral (sentiment_score a)) l)) =
   Z.of_nat (length l))%Z.
Proof.
  induction l as [|a l IH]; [reflexivity|].
  pose proof (classify_exclusive (sentiment_score a)) as H. cbn [filter].
  destruct (isPositive (sentiment_score a)), (isNegative (sentiment_score a)),
    (isNeutral (sentiment_score a)); cbn [Z.b2z] in H; try lia;
    cbn [length]; lia.
Qed.

Lemma countOn_publishedOn (dateStr : Z) (test : Q -> bool) (l : list Article) :
  countOn dateStr test l =
  Z.of_nat (length (filter (fun a => test (sentiment_score a)) (publishedOn dateStr l))).
Proof. unfold countOn, publishedOn. now rewrite filter_andb. Qed.

(** Rounding each term moves a sum by at most 0.0005 per term. *)
Lemma sumQ_rounded (xs : list Q) :
  sumQ xs - inject_Z (Z.of_nat (length xs)) * (1 # 2000) <= sumQ (map toFixed3 xs) /\
  sumQ (map toFixed3 xs) <= sumQ xs + inject_Z (Z.of_nat (length xs)) * (1 # 2000).
Proof.
  induction xs as [|x xs [IHlo IHhi]].
  - unfold sumQ. cbn [map length fold_left Z.of_nat]. change (inject_Z 0) with 0. lra.
  - cbn [map length]. rewrite Nat2Z.inj_succ, <- Z.add_1_r, inject_Z_plus.
    change (inject_Z 1) with 1.
    pose proof (sumQ_cons x xs) as E1.
    pose proof (sumQ_cons (toFixed3 x) (map toFixed3 xs)) as E2.
    destruct (toFixed3_error x) as [Hlo Hhi]. lra.
Qed.

Lemma mean_rounded (xs : list Q) :
  xs <> [] ->
  Qabs (toFixed3 (mean xs) - mean (map toFixed3 xs)) <= 1 # 1000.
Proof.
  intro Hne. apply Qabs_Qle_condition.
  destruct (sumQ_rounded xs) as [Hlo Hhi].
  destruct (toFixed3_error (mean xs)) as [Rlo Rhi].
  unfold mean in *. rewrite length_map.
  set (L := inject_Z (Z.of_nat (length xs))) in *.
  assert (HL : 0 < L).
  { unfold L. change 0 with (inject_Z 0). rewrite <- Zlt_Qlt.
    destruct xs; [congruence|cbn [length]; lia]. }
  set (S := sumQ xs) in *. set (S' := sumQ (map toFixed3 xs)) in *.
  assert (E : S' / L - S / L == (S' - S) / L) by (field; lra).
  assert (Hd : - (1 # 2000) <= (S' - S) / L /\ (S' - S) / L <= 1 # 2000).
  { split.
    - apply Qle_shift_div_l; [exact HL|lra].
    - apply Qle_shift_div_r; [exact HL|lra]. }
  lra.
Qed.

Section DailyStats.

Variable now : Z.
Variable rand : nat -> Q.
Hypothesis rand_unit : unitInterval rand.
Hypothesis after_seven : (7 * msPerHour <= now mod msPerDay)%Z.

Lemma length_dayArticles (date : Z) (day todo : nat) :
  forall i k, length (dayArticles rand date day todo i k) = todo.
Proof. induction todo as [|todo IH]; intros i k; simpl; [reflexivity|now rewrite IH]. Qed.

Lemma length_dayList (day : nat) :
  Z.of_nat (length (dayList now rand day)) = numArticlesAt rand (dayStart rand day).
Proof.
  unfold dayList. rewrite length_dayArticles.
  pose proof (numArticlesAt_bounds rand (dayStart rand day) rand_unit). lia.
Qed.

Lemma dayArticles_scores (date : Z) (day todo : nat) :
  forall i k,
    map sentiment_score (map fst (dayArticles rand date day todo i k)) =
    map toFixed3 (map snd (dayArticles rand date day todo i k)).
Proof.
  induction todo as [|todo IH]; intros i k; cbn [dayArticles map].
  - reflexivity.
  - now rewrite IH.
Qed.

Lemma dayArticles_published (date : Z) (day todo : nat) :
  forall i k,
    map published (map fst (dayArticles rand date day todo i k)) =
    map (fun j => (date - Z.of_nat j * msPerHour)%Z) (seq i todo).
Proof.
  induction todo as [|todo IH]; intros i k; cbn [dayArticles seq map].
  - reflexivity.
  - now rewrite IH.
Qed.

(** From 07:00 UTC on, the articles of a day are published on its date. *)
Lemma isoDate_published (day j : nat) :
  (j < 8)%nat ->
  isoDate (dateOf now day - Z.of_nat j * msPerHour) = (isoDate now - Z.of_nat day)%Z.
Proof.
  intro Hj. unfold isoDate, dateOf, msPerDay, msPerHour in *.
  symmetry. apply (Z.div_unique _ _ _ (now mod 86400000 - Z.of_nat j * 3600000)).
  - left. pose proof (Z.mod_pos_bound now 86400000). lia.
  - pose proof (Z.div_mod now 86400000). lia.
Qed.

Lemma dayList_dates (day : nat) :
  Forall (fun a => isoDate (published a) = (isoDate now - Z.of_nat day)%Z)
    (map fst (dayList now rand day)).
Proof.
  rewrite <- (Forall_map published (fun t => isoDate t = (isoDate now - Z.of_nat day)%Z)).
  unfold dayList. rewrite dayArticles_published. rewrite Forall_map.
  apply Forall_forall. intros j Hin. apply in_seq in Hin.
  apply isoDate_published.
  pose proof (numArticlesAt_bounds rand (dayStart rand day) rand_unit). lia.
Qed.

(** The articles published on the date of day [day] are the articles
    generated for that day, once the day has been generated. *)
Lemma publishedOn_articlesAfter (day days : nat) :
  publishedOn (isoDate (dateOf now day)) (articlesAfter now rand days) =
  if (day <? days)%nat then map fst (dayList now rand day) else [].
Proof.
  rewrite isoDate_dateOf. unfold publishedOn, articlesAfter.
  induction days as [|days IH]; [reflexivity|].
  rewrite seq_S, flat_map_app, filter_app, IH. cbn [flat_map Nat.add].
  rewrite app_nil_r.
  destruct (Nat.ltb_spec day days) as [Hlt|Hge].
  - replace (day <? S days)%nat with true by (symmetry; apply Nat.ltb_lt; lia).
    rewrite filter_none, app_nil_r; [reflexivity|].
    eapply Forall_impl; [|apply dayList_dates]. cbv beta. intros a Ha.
    unfold startsWith. rewrite Ha. apply Z.eqb_neq. lia.
  - destruct (Nat.eq_dec day days) as [->|Hne].
    + replace (days <? S days)%nat with true by (symmetry; apply Nat.ltb_lt; lia).
      cbn [app]. apply filter_all.
      eapply Forall_impl; [|apply dayList_dates]. cbv beta. intros a Ha.
      unfold startsWith. rewrite Ha. apply Z.eqb_refl.
    + replace (day <? S days)%nat with false by (symmetry; apply Nat.ltb_ge; lia).
      cbn [app]. apply filter_none.
      eapply Forall_impl; [|apply dayList_dates]. cbv beta. intros a Ha.
      unfold startsWith. rewrite Ha. apply Z.eqb_neq. lia.
Qed.

Lemma statOf_consistent (day : nat) :
  (positive_count (statOf now rand day) + negative_count (statOf now rand day)
   + neutral_count (statOf now rand day) = article_count (statOf now rand day))%Z /\
  article_count (statOf now rand day) = Z.of_nat (length (dayList now rand day)) /\
  Qabs (avg_sentiment (statOf now rand day)
        - mean (map sentiment_score (map fst (dayList now rand day)))) <= 1 # 1000.
Proof.
  cbn [statOf positive_count negative_count neutral_count article_count avg_sentiment].
  rewrite !countOn_publishedOn, publishedOn_articlesAfter.
  replace (day <? S day)%nat with true by (symmetry; apply Nat.ltb_lt; lia).
  rewrite counts_partition, length_map, length_dayList.
  repeat split.
  unfold dayList at 2. rewrite dayArticles_scores. fold (dayList now rand day).
  rewrite <- length_dayList, <- (length_map snd).
  apply mean_rounded.
  intro Hnil. apply (f_equal (@length Q)) in Hnil.
  rewrite length_map in Hnil. cbn [length] in Hnil.
  pose proof (length_dayList day).
  pose proof (numArticlesAt_bounds rand (dayStart rand day) rand_unit). lia.
Qed.

End DailyStats.

Lemma In_indexed {A : Type} (p : nat * A) (l : list A) :
  forall a, In p (indexed a l) -> In (snd p) l.
Proof. intros a H. destruct p as [i x]. exact (in_combine_r _ _ _ _ H). Qed.

(** Every entry of [daily_stats] is the record of some day with
    [moving_avg] filled in. *)
Lemma daily_stats_origin (now : Z) (rand : nat -> Q) (d : DailyStat) :
  In d (daily_stats (getSampleData now rand)) ->
  exists day v, (day < 14)%nat /\ d = setMovingAvg v (statOf now rand day).
Proof.
  unfold getSampleData. cbn [daily_stats]. rewrite generated_spec. cbn [fst snd].
  rewrite movingAvgLoop_spec. intro H.
  apply in_map_iff in H. destruct H as [p [<- Hp]].
  apply In_indexed, in_rev, in_map_iff in Hp. destruct Hp as [day [<- Hday]].
  apply in_seq in Hday. exists day. eexists. split; [lia|reflexivity].
Qed.


Lemma randOneOff_unit : unitInterval randOneOff.
Proof.
  intro k. unfold randOneOff. destruct (k =? 3)%nat; split;
    solve [apply Qle_refl | reflexivity | discriminate].
Defined.



(** ** The hook *)

(** C10, as amended: once [loading] is false, [data] is null only if the
    response was OK and its body parsed to the JSON value [null]; if the
    fetch failed, the response was not OK or the body did not parse,
    [error] holds a message and [data] is the generated sample
    Snapshot. *)
Theorem loaded_data (now : Z) (rand : nat -> Q) (o : FetchOutcome) (n : nat) :
  loading (stateAfter now rand n o) = false ->
  (isNull (data (stateAfter now rand n o)) = true ->
   o = Responded true (BodyParsed JNull)) /\
  (failed o = true ->
   (exists message, error (stateAfter now rand n o) = Some message) /\
   data (stateAfter now rand n o) = Sample (getSampleData now rand)).
Proof.
  unfold stateAfter, fetchData, catchBlock.
  destruct o as [message|[|] [j|message]];
    do 5 (try destruct n as [|n]);
    cbn [app firstn fold_left applyAction initialState loading data error failed isNull];
    intro Hl; try discriminate Hl;
    (split; [intro Hnull; try discriminate Hnull | intro Hf; try discriminate Hf]);
    try (split; [eexists; reflexivity|reflexivity]).
  all: destruct j; try discriminate Hnull; reflexivity.
Qed.

Lemma loaded_data_witness :
  (isNull (data (stateAfter clock randZero 4 (FetchRejected "Failed to fetch"))) = true ->
   FetchRejected "Failed to fetch" = Responded true (BodyParsed JNull)) /\
  (failed (FetchRejected "Failed to fetch") = true ->
   (exists message,
       error (stateAfter clock randZero 4 (FetchRejected "Failed to fetch")) = Some message) /\
   data (stateAfter clock randZero 4 (FetchRejected "Failed to fetch")) =
     Sample (getSampleData clock randZero)).
Proof.
  apply (loaded_data clock randZero (FetchRejected "Failed to fetch") 4).
  reflexivity.
Defined.

(** C10, as stated, fails: when the response is OK and its body is the
    JSON value [null], [loading] ends false with [data] null. *)
Lemma loaded_with_null_data :
  loading (stateAfter clock randZero 4 (Responded true (BodyParsed JNull))) = false /\
  isNull (data (stateAfter clock randZero 4 (Responded true (BodyParsed JNull)))) = true.
Proof. split; reflexivity. Qed.

(** The counts depend on the time of day: in a run started at 00:30 UTC
    the second to fourth article of each day are published on the
    previous date, and the day of the clock records 4 articles and
    counts 1. *)
Lemma counts_miss_articles_after_midnight :
  option_map
    (fun d => (date d, article_count d,
               (positive_count d + negative_count d + neutral_count d)%Z))
    (nth_error (daily_stats (getSampleData clockAfterMidnight randZero)) 13)
  = Some (19675%Z, 4%Z, 1%Z).
Proof. vm_compute. reflexivity. Qed.

(** ** Ranges and totals *)

Lemma roundHalfAway_monotone (x y : Q) :
  x <= y -> (roundHalfAway x <= roundHalfAway y)%Z.
Proof.
  intro Hxy. unfold roundHalfAway.
  destruct (Qle_bool 0 x) eqn:Ex, (Qle_bool 0 y) eqn:Ey; q_bool.
  - apply Qfloor_resp_le. lra.
  - lra.
  - assert (0 <= Qfloor (- x + (1 # 2)))%Z
      by (change 0%Z with (Qfloor 0); apply Qfloor_resp_le; lra).
    assert (0 <= Qfloor (y + (1 # 2)))%Z
      by (change 0%Z with (Qfloor 0); apply Qfloor_resp_le; lra).
    lia.
  - assert (Qfloor (- y + (1 # 2)) <= Qfloor (- x + (1 # 2)))%Z
      by (apply Qfloor_resp_le; lra).
    lia.
Qed.

Lemma toFixed3_monotone (x y : Q) : x <= y -> toFixed3 x <= toFixed3 y.
Proof.
  intro Hxy. unfold toFixed3, Qle. cbn [Qnum Qden].
  assert (roundHalfAway (x * 1000) <= roundHalfAway (y * 1000))%Z
    by (apply roundHalfAway_monotone; lra).
  lia.
Qed.

Lemma clamp_range (x : Q) : -1 <= JSmax (-1) (JSmin 1 x) <= 1.
Proof.
  unfold JSmax, JSmin.
  destruct (Qle_bool 1 x) eqn:E1.
  - destruct (Qle_bool (-1) 1) eqn:E2; q_bool; lra.
  - destruct (Qle_bool (-1) x) eqn:E2; q_bool; lra.
Qed.

Lemma dayArticles_Forall (P : Article -> Prop) (rand : nat -> Q) (date : Z) (day todo : nat) :
  (forall i k, P (fst (fst (newArticle rand date day i k)))) ->
  forall i k, Forall P (map fst (dayArticles rand date day todo i k)).
Proof.
  intro HP. induction todo as [|todo IH]; intros i k; cbn [dayArticles map].
  - constructor.
  - constructor; [apply HP|apply IH].
Qed.

(** A property of every article built by the inner loop holds of every
    article of the Snapshot. *)
Lemma articles_Forall (P : Article -> Prop) (now : Z) (rand : nat -> Q) :
  (forall date day i k, P (fst (fst (newArticle rand date day i k)))) ->
  Forall P (articles (getSampleData now rand)).
Proof.
  intro HP. unfold getSampleData. cbn [articles]. rewrite generated_spec. cbn [fst].
  eapply Permutation_Forall; [symmetry; apply sortBy_Permutation|].
  unfold articlesAfter. apply Forall_flat_map, Forall_forall. intros day _.
  apply dayArticles_Forall. intros i k. apply HP.
Qed.

(** Every article of a Snapshot has a score between -1 and 1 and a
    confidence between 0.7 and 0.95. *)
Theorem scores_and_confidences_in_range (now : Z) (rand : nat -> Q) :
  unitInterval rand ->
  Forall (fun a => (-1 <= sentiment_score a <= 1) /\ (0.7 <= confidence a <= 0.95))
    (articles (getSampleData now rand)).
Proof.
  intro Hunit. apply articles_Forall. intros date day i k.
  unfold newArticle, bind, random, ret.
  cbn [fst sentiment_score confidence].
  destruct (Hunit (S (S (S k)))) as [H0 H1].
  split; split.
  - apply Qle_trans with (toFixed3 (-1)); [vm_compute; discriminate|].
    apply toFixed3_monotone, clamp_range.
  - apply Qle_trans with (toFixed3 1); [|vm_compute; discriminate].
    apply toFixed3_monotone, clamp_range.
  - apply Qle_trans with (toFixed3 0.7); [vm_compute; discriminate|].
    apply toFixed3_monotone. lra.
  - apply Qle_trans with (toFixed3 0.95); [|vm_compute; discriminate].
    apply toFixed3_monotone. lra.
Qed.

Lemma scores_and_confidences_in_range_witness :
  Forall (fun a => (-1 <= sentiment_score a <= 1) /\ (0.7 <= confidence a <= 0.95))
    (articles (getSampleData clock randZero)).
Proof.
  apply (scores_and_confidences_in_range clock randZero). exact randZero_unit.
Defined.

Lemma sumZ_app (l l' : list Z) : sumZ (l ++ l') = (sumZ l + sumZ l')%Z.
Proof. unfold sumZ. induction l as [|x l IH]; cbn [app fold_right]; lia. Qed.

Lemma sumZ_rev (l : list Z) : sumZ (rev l) = sumZ l.
Proof.
  induction l as [|x l IH]; [reflexivity|].
  cbn [rev]. rewrite sumZ_app, IH. unfold sumZ. cbn [fold_right]. lia.
Qed.

Lemma sumZ_bounds (lo hi : Z) (l : list Z) :
  Forall (fun x => lo <= x <= hi)%Z l ->
  (lo * Z.of_nat (length l) <= sumZ l <= hi * Z.of_nat (length l))%Z.
Proof.
  unfold sumZ. induction 1 as [|x l Hx _ IH]; cbn [fold_right length]; [lia|].
  rewrite Nat2Z.inj_succ. lia.
Qed.

Lemma daily_stats_counts (now : Z) (rand : nat -> Q) :
  map article_count (daily_stats (getSampleData now rand)) =
  rev (map (fun day => numArticlesAt rand (dayStart rand day)) (seq 0 14)).
Proof.
  unfold getSampleData. cbn [daily_stats].
  rewrite movingAvgLoop_field by reflexivity.
  rewrite generated_spec. cbn [fst snd]. now rewrite map_rev, map_map.
Qed.

Lemma length_articlesAfter (now : Z) (rand : nat -> Q) (days : nat) :
  unitInterval rand ->
  Z.of_nat (length (articlesAfter now rand days)) =
  sumZ (map (fun day => numArticlesAt rand (dayStart rand day)) (seq 0 days)).
Proof.
  intro Hunit. unfold articlesAfter.
  induction days as [|days IH]; [reflexivity|].
  rewrite seq_S, flat_map_app, map_app, length_app, sumZ_app, Nat2Z.inj_add, IH.
  cbn [flat_map map Nat.add]. rewrite app_nil_r, length_map.
  rewrite (length_dayList now rand Hunit). unfold sumZ. cbn [fold_right]. lia.
Qed.

(** A Snapshot has 14 daily entries of 4 to 8 articles each, and
    [total_articles] is both the number of its articles and the sum of
    the daily [article_count] values. *)
Theorem totals_add_up (now : Z) (rand : nat -> Q) :
  unitInterval rand ->
  length (daily_stats (getSampleData now rand)) = 14%nat /\
  Forall (fun d => (4 <= article_count d <= 8)%Z) (daily_stats (getSampleData now rand)) /\
  total_articles (getSampleData now rand) =
    Z.of_nat (length (articles (getSampleData now rand))) /\
  total_articles (getSampleData now rand) =
    sumZ (map article_count (daily_stats (getSampleData now rand))) /\
  (56 <= total_articles (getSampleData now rand) <= 112)%Z.
Proof.
  intro Hunit.
  pose proof (daily_stats_counts now rand) as Hcounts.
  assert (Hlen : length (daily_stats (getSampleData now rand)) = 14%nat).
  { rewrite <- (length_map article_count), Hcounts, length_rev, length_map.
    apply length_seq. }
  assert (Hrange : Forall (fun d => (4 <= article_count d <= 8)%Z)
                     (daily_stats (getSampleData now rand))).
  { rewrite <- (Forall_map article_count (fun n => (4 <= n <= 8)%Z)), Hcounts.
    apply Forall_rev. rewrite Forall_map. apply Forall_forall. intros day _.
    apply numArticlesAt_bounds, Hunit. }
  assert (Htotal : total_articles (getSampleData now rand) =
                   sumZ (map article_count (daily_stats (getSampleData now rand)))).
  { rewrite Hcounts, sumZ_rev, <- (length_articlesAfter now rand 14 Hunit).
    unfold getSampleData. cbn [total_articles]. now rewrite generated_spec. }
  repeat split; try assumption.
  - unfold getSampleData. cbn [total_articles articles].
    now rewrite (Permutation_length (sortBy_Permutation _ _)).
  - rewrite Htotal.
    pose proof (sumZ_bounds 4 8 (map article_count (daily_stats (getSampleData now rand)))) as H.
    rewrite Forall_map, length_map, Hlen in H. specialize (H Hrange). lia.
  - rewrite Htotal.
    pose proof (sumZ_bounds 4 8 (map article_count (daily_stats (getSampleData now rand)))) as H.
    rewrite Forall_map, length_map, Hlen in H. specialize (H Hrange). lia.
Qed.

Lemma totals_add_up_witness :
  length (daily_stats (getSampleData clock randZero)) = 14%nat /\
  Forall (fun d => (4 <= article_count d <= 8)%Z) (daily_stats (getSampleData clock randZero)) /\
  total_articles (getSampleData clock randZero) =
    Z.of_nat (length (articles (getSampleData clock randZero))) /\
  total_articles (getSampleData clock randZero) =
    sumZ (map article_count (daily_stats (getSampleData clock randZero))) /\
  (56 <= total_articles (getSampleData clock randZero) <= 112)%Z.
Proof. apply (totals_add_up clock randZero). exact randZero_unit. Defined.

(** ** Source statistics *)

Section SourceMap.

Implicit Types (k : string) (v : SourceAcc) (m : list (string * SourceAcc)).

Lemma getKey_In k v m : getKey k m = Some v -> In (k, v) m.
Proof.
  induction m as [|[k' v'] m IH]; cbn [getKey]; [discriminate|].
  destruct (String.eqb_spec k k') as [->|Hne]; intro H.
  - injection H as ->. now left.
  - right. now apply IH.
Qed.

Lemma In_getKey k v m : NoDup (map fst m) -> In (k, v) m -> getKey k m = Some v.
Proof.
  induction m as [|[k' v'] m IH]; cbn [getKey map fst]; intros Hnd Hin; [contradiction|].
  inversion Hnd as [|? ? Hnotin Hnd']; subst.
  destruct Hin as [Heq|Hin].
  - injection Heq as -> ->. now rewrite String.eqb_refl.
  - destruct (String.eqb_spec k k') as [->|Hne]; [|now apply IH].
    exfalso. apply Hnotin. now apply (in_map fst) in Hin.
Qed.

Lemma getKey_setKey_same k v m : getKey k (setKey k v m) = Some v.
Proof.
  induction m as [|[k' v'] m IH]; cbn [setKey getKey].
  - now rewrite String.eqb_refl.
  - destruct (String.eqb_spec k k') as [->|Hne]; cbn [getKey].
    + now rewrite String.eqb_refl.
    + destruct (String.eqb_spec k k'); [contradiction|exact IH].
Qed.

Lemma getKey_setKey_other k k' v m : k' <> k -> getKey k' (setKey k v m) = getKey k' m.
Proof.
  intro Hne. induction m as [|[k'' v''] m IH]; cbn [setKey getKey].
  - destruct (String.eqb_spec k' k); [contradiction|reflexivity].
  - destruct (String.eqb_spec k k'') as [->|Hne']; cbn [getKey].
    + destruct (String.eqb_spec k' k''); [contradiction|reflexivity].
    + now rewrite IH.
Qed.

Lemma setKey_keys k v m x :
  In x (map fst (setKey k v m)) -> x = k \/ In x (map fst m).
Proof.
  induction m as [|[k' v'] m IH]; cbn [setKey map fst In].
  - intros [<-|[]]. now left.
  - destruct (String.eqb_spec k k') as [->|Hne]; cbn [map fst In].
    + intros [<-|H]; auto.
    + intros [<-|H]; auto. destruct (IH H); auto.
Qed.

Lemma setKey_NoDup k v m : NoDup (map fst m) -> NoDup (map fst (setKey k v m)).
Proof.
  induction m as [|[k' v'] m IH]; cbn [setKey map fst]; intro Hnd.
  - repeat constructor. intros [].
  - inversion Hnd as [|? ? Hnotin Hnd']; subst.
    destruct (String.eqb_spec k k') as [->|Hne]; cbn [map fst].
    + now constructor.
    + constructor; [|now apply IH].
      intro Hin. destruct (setKey_keys _ _ _ _ Hin); [congruence|contradiction].
Qed.

Lemma bySource_snoc (src : string) (l : list Article) (a : Article) :
  bySource src (l ++ [a]) =
  bySource src l ++ (if String.eqb (source a) src then [a] else []).
Proof. unfold bySource. rewrite filter_app. reflexivity. Qed.

Lemma expectedAcc_other (src : string) (l : list Article) (a : Article) :
  src <> source a -> expectedAcc src (l ++ [a]) = expectedAcc src l.
Proof.
  intro Hne. unfold expectedAcc. rewrite bySource_snoc.
  destruct (String.eqb_spec (source a) src); [congruence|now rewrite app_nil_r].
Qed.

Lemma expectedAcc_same (l : list Article) (a : Article) :
  expectedAcc (source a) (l ++ [a]) =
  Some {| scores := match expectedAcc (source a) l with
                    | Some acc => scores acc
                    | None => []
                    end ++ [sentiment_score a];
          count := (match expectedAcc (source a) l with
                    | Some acc => count acc
                    | None => 0
                    end + 1)%Z |}.
Proof.
  unfold expectedAcc. rewrite bySource_snoc, String.eqb_refl.
  destruct (bySource (source a) l) as [|b group]; [reflexivity|].
  cbn [app scores count map length]. f_equal. f_equal.
  - now rewrite map_app.
  - rewrite length_app. cbn [length]. lia.
Qed.

(** [sourceMap] after the [forEach]: distinct keys, and under each key
    the scores and the number of the articles of that source. *)
Lemma sourceMap_spec (l : list Article) :
  NoDup (map fst (fold_left addToSourceMap l [])) /\
  forall k, getKey k (fold_left addToSourceMap l []) = expectedAcc k l.
Proof.
  induction l as [|a l [IHnd IHget]] using rev_ind.
  - split; [constructor|reflexivity].
  - rewrite fold_left_app. cbn [fold_left].
    set (m := fold_left addToSourceMap l []) in *.
    unfold addToSourceMap.
    set (m1 := match getKey (source a) m with
               | Some _ => m
               | None => setKey (source a) {| scores := []; count := 0 |} m
               end).
    assert (Hnd1 : NoDup (map fst m1))
      by (unfold m1; destruct (getKey (source a) m); [|apply setKey_NoDup]; exact IHnd).
    assert (Hget1 : getKey (source a) m1 =
                    Some match expectedAcc (source a) l with
                         | Some acc => acc
                         | None => {| scores := []; count := 0 |}
                         end).
    { unfold m1. rewrite <- IHget.
      destruct (getKey (source a) m) eqn:E; [exact E|apply getKey_setKey_same]. }
    assert (Hother : forall k, k <> source a -> getKey k m1 = getKey k m).
    { intros k Hne. unfold m1.
      destruct (getKey (source a) m); [reflexivity|now apply getKey_setKey_other]. }
    rewrite Hget1. split.
    + now apply setKey_NoDup.
    + intro k. destruct (String.eqb_spec k (source a)) as [->|Hne].
      * rewrite getKey_setKey_same, expectedAcc_same.
        now destruct (expectedAcc (source a) l).
      * rewrite getKey_setKey_other, Hother, IHget, expectedAcc_other; auto.
Qed.

End SourceMap.

Lemma bySource_Permutation (src : string) (l l' : list Article) :
  Permutation l l' -> Permutation (bySource src l) (bySource src l').
Proof. apply Permutation_filter. Qed.



(** The entries of [source_stats] have pairwise different sources, and
    the source of every article has an entry. *)
Theorem source_stats_cover (now : Z) (rand : nat -> Q) :
  NoDup (map ss_source (source_stats (getSampleData now rand))) /\
  Forall (fun a => In (source a) (map ss_source (source_stats (getSampleData now rand))))
    (articles (getSampleData now rand)).
Proof.
  unfold getSampleData, sourceStatsOf. cbn [source_stats articles].
  set (arts := fst (fst (generated now rand))).
  destruct (sourceMap_spec arts) as [Hnd Hget].
  assert (Hkeys : Permutation
            (map ss_source
               (sortBy (fun a b => (ss_article_count b - ss_article_count a)%Z)
                  (map toSourceStat (fold_left addToSourceMap arts []))))
            (map fst (fold_left addToSourceMap arts []))).
  { rewrite (Permutation_map ss_source (sortBy_Permutation _ _)), map_map. reflexivity. }
  split.
  - apply (Permutation_NoDup (Permutation_sym Hkeys) Hnd).
  - eapply Permutation_Forall; [symmetry; apply sortBy_Permutation|].
    apply Forall_forall. intros a Ha.
    apply (Permutation_in _ (Permutation_sym Hkeys)).
    assert (Hsome : exists acc, getKey (source a) (fold_left addToSourceMap arts []) = Some acc).
    { rewrite Hget. unfold expectedAcc.
      assert (Hin : In a (bySource (source a) arts))
        by (apply filter_In; split; [exact Ha|apply String.eqb_refl]).
      destruct (bySource (source a) arts); [contradiction|eexists; reflexivity]. }
    destruct Hsome as [acc Hacc]. apply getKey_In in Hacc.
    now apply (in_map fst) in Hacc.
Qed.

(** ** The hook, step by step *)

(** [loading] stays true until the last setter call of [fetchData], so
    no render sees [loading] false with [data] or [error] still to be
    set; once all calls are made the state is final: on success the
    parsed document with no error, otherwise the sample Snapshot with the
    message of the error. *)
Theorem hook_settles (now : Z) (rand : nat -> Q) (o : FetchOutcome) (n : nat) :
  loading (stateAfter now rand n o) = (n <? 4)%nat /\
  stateAfter now rand (4 + n) o =
    {| data := match o with
               | Responded true (BodyParsed j) => Parsed j
               | _ => Sample (getSampleData now rand)
               end;
       loading := false;
       error := match o with
                | FetchRejected message => Some message
                | Responded false _ => Some "Failed to fetch sentiment data"%string
                | Responded true (BodyRejected message) => Some message
                | Responded true (BodyParsed _) => None
                end |}.
Proof.
  unfold stateAfter, fetchData, catchBlock.
  destruct o as [message|[|] [j|message]];
    (split; [do 4 (try destruct n as [|n])|]);
    cbn [app Nat.add firstn fold_left applyAction initialState loading data error];
    rewrite ?firstn_nil; reflexivity.
Qed.

(** ** Order and extent of the Snapshot *)


Lemma StronglySorted_app {A : Type} (R : A -> A -> Prop) (l l' : list A) :
  StronglySorted R l -> StronglySorted R l' ->
  (forall x y, In x l -> In y l' -> R x y) ->
  StronglySorted R (l ++ l').
Proof.
  induction 1 as [|x l Hs IH Hx]; intros Hl' Hcross; cbn [app]; [exact Hl'|].
  constructor.
  - apply IH; [exact Hl'|]. intros a b Ha Hb. apply Hcross; [now right|exact Hb].
  - apply Forall_app. split; [exact Hx|].
    apply Forall_forall. intros y Hy. apply Hcross; [now left|exact Hy].
Qed.

Lemma StronglySorted_weaken {A : Type} (R R' : A -> A -> Prop) (l : list A) :
  (forall x y, R x y -> R' x y) -> StronglySorted R l -> StronglySorted R' l.
Proof.
  intro HR. induction 1 as [|x l Hs IH Hx]; constructor; [exact IH|].
  eapply Forall_impl; [|exact Hx]. intros y Hy. apply HR, Hy.
Qed.

Lemma sortBy_descending_id {A : Type} (key : A -> Z) (l : list A) :
  StronglySorted (fun a b => (key a >= key b)%Z) l ->
  sortBy (fun a b => (key b - key a)%Z) l = l.
Proof.
  induction 1 as [|x l Hs IH Hx]; cbn [sortBy fold_right]; [reflexivity|].
  fold (sortBy (fun a b => (key b - key a)%Z) l). rewrite IH.
  destruct l as [|y l]; cbn [insertBy]; [reflexivity|].
  inversion Hx; subst.
  destruct (Z.leb_spec (key y - key x) 0); [reflexivity|lia].
Qed.

Lemma articlesAfter_published (now : Z) (rand : nat -> Q) (days : nat) :
  map published (articlesAfter now rand days) =
  flat_map (fun d => map (fun i => (dateOf now d - Z.of_nat i * msPerHour)%Z)
                       (seq 0 (Z.to_nat (numArticlesAt rand (dayStart rand d)))))
    (seq 0 days).
Proof.
  unfold articlesAfter. rewrite flat_map_concat_map, concat_map, map_map.
  rewrite <- flat_map_concat_map. apply flat_map_ext. intro d.
  apply dayArticles_published.
Qed.

(** The instants of an hourly series are strictly decreasing. *)
Lemma hourly_descending (date : Z) (n : nat) :
  forall i, StronglySorted Z.gt
              (map (fun j => (date - Z.of_nat j * msPerHour)%Z) (seq i n)).
Proof.
  induction n as [|n IH]; intro i; cbn [seq map]; constructor.
  - apply IH.
  - rewrite Forall_map. apply Forall_forall. intros j Hj. apply in_seq in Hj.
    unfold msPerHour. lia.
Qed.

Lemma published_descending (now : Z) (n : nat -> nat) (days : nat) :
  (forall d, n d <= 8)%nat ->
  StronglySorted Z.gt
    (flat_map (fun d => map (fun i => (dateOf now d - Z.of_nat i * msPerHour)%Z)
                          (seq 0 (n d)))
       (seq 0 days)).
Proof.
  intro Hn. induction days as [|days IH]; [constructor|].
  rewrite seq_S, flat_map_app. cbn [flat_map Nat.add]. rewrite app_nil_r.
  apply StronglySorted_app; [exact IH|apply hourly_descending|].
  intros x y Hx Hy.
  apply in_flat_map in Hx. destruct Hx as [d [Hd Hx]]. apply in_seq in Hd.
  apply in_map_iff in Hx. destruct Hx as [i [<- Hi]]. apply in_seq in Hi.
  apply in_map_iff in Hy. destruct Hy as [j [<- Hj]]. apply in_seq in Hj.
  pose proof (Hn d). unfold dateOf, msPerDay, msPerHour. lia.
Qed.

Lemma articlesAfter_descending (now : Z) (rand : nat -> Q) (days : nat) :
  unitInterval rand ->
  StronglySorted (fun a b => (published a > published b)%Z) (articlesAfter now rand days).
Proof.
  intro Hunit.
  apply (StronglySorted_map_inv published Z.gt). rewrite articlesAfter_published.
  apply (published_descending now
           (fun d => Z.to_nat (numArticlesAt rand (dayStart rand d)))).
  intro d. pose proof (numArticlesAt_bounds rand (dayStart rand d) Hunit). lia.
Qed.

(** The final sort finds the articles already in order. *)
Lemma articles_generation_order (now : Z) (rand : nat -> Q) :
  unitInterval rand ->
  articles (getSampleData now rand) = articlesAfter now rand 14.
Proof.
  intro Hunit. unfold getSampleData. cbn [articles]. rewrite generated_spec. cbn [fst].
  apply (sortBy_descending_id published).
  eapply StronglySorted_weaken; [|exact (articlesAfter_descending now rand 14 Hunit)].
  cbv beta. intros a b Hab. lia.
Qed.

(** The articles of a Snapshot are strictly newest first, and the sort
    leaves them in the order of generation: the articles of the day of
    the clock first, then those of the day before, and so on, each day
    with as many articles as its DailyStat records, by index. *)
Theorem articles_newest_first (now : Z) (rand : nat -> Q) :
  unitInterval rand ->
  StronglySorted (fun a b => (published a > published b)%Z)
    (articles (getSampleData now rand)) /\
  map link (articles (getSampleData now rand)) =
    flat_map (fun p => map (articleLink (fst p)) (seq 0 (Z.to_nat (snd p))))
      (indexed 0 (rev (map article_count (daily_stats (getSampleData now rand))))).
Proof.
  intro Hunit. rewrite (articles_generation_order now rand Hunit).
  split; [exact (articlesAfter_descending now rand 14 Hunit)|].
  rewrite articlesAfter_links, daily_stats_counts, rev_involutive.
  unfold indexed. rewrite length_map, length_seq.
  cbn [seq map combine flat_map fst snd]. reflexivity.
Qed.

Lemma articles_newest_first_witness :
  StronglySorted (fun a b => (published a > published b)%Z)
    (articles (getSampleData clock randZero)) /\
  map link (articles (getSampleData clock randZero)) =
    flat_map (fun p => map (articleLink (fst p)) (seq 0 (Z.to_nat (snd p))))
      (indexed 0 (rev (map article_count (daily_stats (getSampleData clock randZero))))).
Proof. apply (articles_newest_first clock randZero). exact randZero_unit. Defined.

(** ** Ranges of the averages *)

Lemma toFixed3_range (x : Q) : -1 <= x <= 1 -> -1 <= toFixed3 x <= 1.
Proof.
  intros [Hlo Hhi]. split.
  - apply Qle_trans with (toFixed3 (-1)); [vm_compute; discriminate|].
    now apply toFixed3_monotone.
  - apply Qle_trans with (toFixed3 1); [|vm_compute; discriminate].
    now apply toFixed3_monotone.
Qed.

Lemma sumQ_range (a b : Q) (xs : list Q) :
  Forall (fun x => a <= x <= b) xs ->
  a * inject_Z (Z.of_nat (length xs)) <= sumQ xs /\
  sumQ xs <= b * inject_Z (Z.of_nat (length xs)).
Proof.
  induction 1 as [|x xs [Hlo Hhi] _ [IHlo IHhi]].
  - unfold sumQ. cbn [length fold_left Z.of_nat]. change (inject_Z 0) with 0. lra.
  - cbn [length]. rewrite Nat2Z.inj_succ, <- Z.add_1_r, inject_Z_plus.
    change (inject_Z 1) with 1.
    pose proof (sumQ_cons x xs) as E.
    set (L := inject_Z (Z.of_nat (length xs))) in *.
    set (s := sumQ xs) in *. set (s' := sumQ (x :: xs)) in *.
    split; lra.
Qed.

(** The mean of a non-empty list lies between bounds of its elements. *)
Lemma mean_range (a b : Q) (xs : list Q) :
  xs <> [] -> Forall (fun x => a <= x <= b) xs -> a <= mean xs <= b.
Proof.
  intros Hne Hall. destruct (sumQ_range a b xs Hall) as [Hlo Hhi]. unfold mean.
  assert (HL : 0 < inject_Z (Z.of_nat (length xs))).
  { change 0 with (inject_Z 0). rewrite <- Zlt_Qlt.
    destruct xs; [contradiction|]. cbn [length]. lia. }
  split.
  - apply Qle_shift_div_l; assumption.
  - apply Qle_shift_div_r; assumption.
Qed.

Lemma dayArticles_sentiments (rand : nat -> Q) (date : Z) (day todo : nat) :
  forall i k,
    Forall (fun x => -1 <= x <= 1) (map snd (dayArticles rand date day todo i k)).
Proof.
  induction todo as [|todo IH]; intros i k; cbn [dayArticles map]; constructor.
  - unfold newArticle, bind, random, ret. cbn [fst snd]. apply clamp_range.
  - apply IH.
Qed.

Lemma dayList_nonempty (now : Z) (rand : nat -> Q) (day : nat) :
  unitInterval rand -> dayList now rand day <> [].
Proof.
  intros Hunit Hnil.
  pose proof (length_dayList now rand Hunit day) as Hlen.
  pose proof (numArticlesAt_bounds rand (dayStart rand day) Hunit).
  rewrite Hnil in Hlen. cbn [length] in Hlen. lia.
Qed.

Lemma statOf_avg_range (now : Z) (rand : nat -> Q) (day : nat) :
  unitInterval rand -> -1 <= avg_sentiment (statOf now rand day) <= 1.
Proof.
  intro Hunit. unfold statOf. cbn [avg_sentiment]. apply toFixed3_range.
  rewrite <- (length_dayList now rand Hunit day), <- (length_map snd).
  apply (mean_range (-1) 1).
  - intro Hnil. apply map_eq_nil in Hnil. exact (dayList_nonempty now rand day Hunit Hnil).
  - apply dayArticles_sentiments.
Qed.

Lemma nth_range (a b : Q) (l : list Q) (j : nat) :
  a <= 0 <= b -> Forall (fun x => a <= x <= b) l -> a <= nth j l 0 <= b.
Proof.
  intros H0 Hall. destruct (Nat.lt_ge_cases j (length l)) as [Hj|Hj].
  - exact (proj1 (Forall_forall _ _) Hall _ (nth_In l 0 Hj)).
  - now rewrite nth_overflow.
Qed.

Lemma windowMean_range (stats : list DailyStat) (i : nat) :
  Forall (fun d => -1 <= avg_sentiment d <= 1) stats ->
  -1 <= windowMean stats i <= 1.
Proof.
  intro Hall. unfold windowMean. apply mean_range.
  - intro Hnil. apply map_eq_nil in Hnil.
    apply (f_equal (@length nat)) in Hnil. rewrite length_seq in Hnil.
    cbn [length] in Hnil. lia.
  - rewrite Forall_map. apply Forall_forall. intros j _.
    apply nth_range; [lra|]. now rewrite Forall_map.
Qed.

Lemma articlesAfter_nonempty (now : Z) (rand : nat -> Q) (days : nat) :
  unitInterval rand -> articlesAfter now rand (S days) <> [].
Proof.
  intros Hunit Hnil. unfold articlesAfter in Hnil. cbn [seq flat_map] in Hnil.
  apply app_eq_nil in Hnil. destruct Hnil as [Hnil _].
  apply map_eq_nil in Hnil. exact (dayList_nonempty now rand 0 Hunit Hnil).
Qed.

(** A property of every article built by the inner loop holds of every
    article in the order of generation. *)
Lemma generated_Forall (P : Article -> Prop) (now : Z) (rand : nat -> Q) :
  (forall date day i k, P (fst (fst (newArticle rand date day i k)))) ->
  Forall P (fst (fst (generated now rand))).
Proof.
  intro HP. rewrite generated_spec. cbn [fst].
  unfold articlesAfter. apply Forall_flat_map, Forall_forall. intros day _.
  apply dayArticles_Forall. intros i k. apply HP.
Qed.

Lemma generated_scores (now : Z) (rand : nat -> Q) :
  Forall (fun a => -1 <= sentiment_score a <= 1) (fst (fst (generated now rand))).
Proof.
  apply generated_Forall. intros date day i k.
  unfold newArticle, bind, random, ret. cbn [fst sentiment_score].
  apply toFixed3_range, clamp_range.
Qed.

(** Every entry of [source_stats] is computed from the non-empty group
    of generated articles that carry its source. *)
Lemma source_stats_groups (now : Z) (rand : nat -> Q) (st : SourceStat) :
  In st (source_stats (getSampleData now rand)) ->
  exists b group,
    bySource (ss_source st) (fst (fst (generated now rand))) = b :: group /\
    st = toSourceStat (ss_source st,
                       {| scores := map sentiment_score (b :: group);
                          count := Z.of_nat (length (b :: group)) |}).
Proof.
  unfold getSampleData, sourceStatsOf. cbn [source_stats].
  set (arts := fst (fst (generated now rand))). intro Hin.
  apply (Permutation_in _ (sortBy_Permutation _ _)) in Hin.
  apply in_map_iff in Hin. destruct Hin as [[k acc] [<- Hin]].
  destruct (sourceMap_spec arts) as [Hnd Hget].
  apply (In_getKey _ _ _ Hnd) in Hin. rewrite Hget in Hin.
  unfold expectedAcc in Hin.
  destruct (bySource k arts) as [|b group] eqn:Egroup; [discriminate|].
  injection Hin as <-. exists b, group.
  cbn [toSourceStat fst snd ss_source]. rewrite Egroup. split; reflexivity.
Qed.

Lemma overall_range (now : Z) (rand : nat -> Q) :
  unitInterval rand -> -1 <= overall_sentiment (getSampleData now rand) <= 1.
Proof.
  intro Hunit. unfold getSampleData. cbn [overall_sentiment].
  rewrite fold_left_field, <- (length_map sentiment_score).
  apply toFixed3_range, (mean_range (-1) 1).
  - intro Hnil. apply map_eq_nil in Hnil. rewrite generated_spec in Hnil.
    exact (articlesAfter_nonempty now rand 13 Hunit Hnil).
  - rewrite Forall_map. apply generated_scores.
Qed.

Lemma daily_stats_ranges (now : Z) (rand : nat -> Q) :
  unitInterval rand ->
  Forall (fun d => -1 <= avg_sentiment d <= 1 /\
                   exists v, moving_avg d = Some v /\ -1 <= v <= 1)
    (daily_stats (getSampleData now rand)).
Proof.
  intro Hunit.
  unfold getSampleData. cbn [daily_stats]. rewrite generated_spec. cbn [fst snd].
  set (stats := rev (map (statOf now rand) (seq 0 14))).
  assert (Hstats : Forall (fun d => -1 <= avg_sentiment d <= 1) stats).
  { apply Forall_rev. rewrite Forall_map. apply Forall_forall. intros day _.
    apply statOf_avg_range, Hunit. }
  rewrite movingAvgLoop_spec, Forall_map. apply Forall_forall. intros p Hp.
  apply In_indexed in Hp. cbn [setMovingAvg avg_sentiment moving_avg]. split.
  - exact (proj1 (Forall_forall _ _) Hstats _ Hp).
  - eexists. split; [reflexivity|]. apply toFixed3_range, windowMean_range, Hstats.
Qed.

Lemma source_stats_ranges (now : Z) (rand : nat -> Q) :
  Forall (fun st => -1 <= ss_avg_sentiment st <= 1)
    (source_stats (getSampleData now rand)).
Proof.
  apply Forall_forall. intros st Hst.
  destruct (source_stats_groups now rand st Hst) as [b [group [Hgroup ->]]].
  cbn [toSourceStat fst snd ss_avg_sentiment scores].
  apply toFixed3_range, (mean_range (-1) 1); [discriminate|].
  rewrite Forall_map, <- Hgroup. apply Forall_forall. intros a Ha.
  apply filter_In in Ha. destruct Ha as [Ha _].
  exact (proj1 (Forall_forall _ _) (generated_scores now rand) a Ha).
Qed.

(** Every average of a Snapshot lies between -1 and 1: the overall
    sentiment, the daily averages, the moving averages (each of which is
    present) and the averages by source. *)
Theorem averages_in_range (now : Z) (rand : nat -> Q) :
  unitInterval rand ->
  -1 <= overall_sentiment (getSampleData now rand) <= 1 /\
  Forall (fun d => -1 <= avg_sentiment d <= 1 /\
                   exists v, moving_avg d = Some v /\ -1 <= v <= 1)
    (daily_stats (getSampleData now rand)) /\
  Forall (fun st => -1 <= ss_avg_sentiment st <= 1)
    (source_stats (getSampleData now rand)).
Proof.
  intro Hunit. split; [|split].
  - apply overall_range, Hunit.
  - apply daily_stats_ranges, Hunit.
  - apply source_stats_ranges.
Qed.

Lemma averages_in_range_witness :
  -1 <= overall_sentiment (getSampleData clock randZero) <= 1 /\
  Forall (fun d => -1 <= avg_sentiment d <= 1 /\
                   exists v, moving_avg d = Some v /\ -1 <= v <= 1)
    (daily_stats (getSampleData clock randZero)) /\
  Forall (fun st => -1 <= ss_avg_sentiment st <= 1)
    (source_stats (getSampleData clock randZero)).
Proof. apply (averages_in_range clock randZero). exact randZero_unit. Defined.

(** ** Stored labels and stored scores *)

(** The class of a number and the class of its rounding differ only when
    the rounding lands on a threshold from beyond it. *)
Lemma labelOf_toFixed3 (x : Q) : labelsAgree (labelOf x) (toFixed3 x).
Proof.
  assert (E2 : toFixed3 0.2 == 0.2) by reflexivity.
  assert (E2' : toFixed3 (-0.2) == -0.2) by reflexivity.
  unfold labelsAgree, labelOf.
  destruct (Qlt_bool 0.2 x) eqn:Hp.
  - assert (Hm : toFixed3 0.2 <= toFixed3 x) by (apply toFixed3_monotone; q_bool; lra).
    destruct (Qlt_bool 0.2 (toFixed3 x)) eqn:Hp'; [left; reflexivity|].
    right; left. split; [|reflexivity]. q_bool. lra.
  - destruct (Qlt_bool x (-0.2)) eqn:Hn.
    + assert (Hm : toFixed3 x <= toFixed3 (-0.2)) by (apply toFixed3_monotone; q_bool; lra).
      destruct (Qlt_bool 0.2 (toFixed3 x)) eqn:Hp'; [exfalso; q_bool; lra|].
      destruct (Qlt_bool (toFixed3 x) (-0.2)) eqn:Hn'; [left; reflexivity|].
      right; right. split; [|reflexivity]. q_bool. lra.
    + assert (Hlo : toFixed3 (-0.2) <= toFixed3 x) by (apply toFixed3_monotone; q_bool; lra).
      assert (Hhi : toFixed3 x <= toFixed3 0.2) by (apply toFixed3_monotone; q_bool; lra).
      left.
      destruct (Qlt_bool 0.2 (toFixed3 x)) eqn:Hp'; [exfalso; q_bool; lra|].
      destruct (Qlt_bool (toFixed3 x) (-0.2)) eqn:Hn'; [exfalso; q_bool; lra|].
      reflexivity.
Qed.

(** The label that [LiveFeed] shows for an article, [getSentimentInfo]
    of its stored score, is the stored [sentiment_label] unless the score
    is exactly 0.2 or -0.2, where the stored label is Positive or
    Negative and the shown one Neutral; the same holds of
    [overall_label] against [overall_sentiment] and of the label of a
    source against its [avg_sentiment]. *)
Theorem labels_agree_off_threshold (now : Z) (rand : nat -> Q) :
  Forall (fun a => getSentimentInfo (sentiment_score a) = sentiment_label a \/
                   (sentiment_score a == 0.2 /\ sentiment_label a = Positive) \/
                   (sentiment_score a == -0.2 /\ sentiment_label a = Negative))
    (articles (getSampleData now rand)) /\
  labelsAgree (overall_label (getSampleData now rand))
    (overall_sentiment (getSampleData now rand)) /\
  Forall (fun st => labelsAgree (ss_sentiment_label st) (ss_avg_sentiment st))
    (source_stats (getSampleData now rand)).
Proof.
  split; [|split].
  - apply articles_Forall. intros date day i k.
    unfold newArticle, bind, random, ret. cbn [fst sentiment_score sentiment_label].
    apply labelOf_toFixed3.
  - unfold getSampleData. cbn [overall_label overall_sentiment]. apply labelOf_toFixed3.
  - apply Forall_forall. intros st Hst.
    destruct (source_stats_groups now rand st Hst) as [b [group [_ ->]]].
    cbn [toSourceStat fst snd ss_avg_sentiment ss_sentiment_label scores].
    apply labelOf_toFixed3.
Qed.

(** ** Articles and the constant tables *)

Lemma pick_In {A : Type} (table : list A) (dflt : A) (r : Q) :
  table <> [] -> 0 <= r < 1 -> In (pick table dflt r) table.
Proof.
  intros Hne [H0 H1]. unfold pick. apply nth_In.
  set (L := Z.of_nat (length table)).
  assert (HL : (0 < L)%Z) by (destruct table; [contradiction|unfold L; cbn [length]; lia]).
  assert (HLq : 0 < inject_Z L) by (change 0 with (inject_Z 0); now rewrite <- Zlt_Qlt).
  assert (Hlo : (0 <= Qfloor (r * inject_Z L))%Z).
  { change 0%Z with (Qfloor 0). apply Qfloor_resp_le. nra. }
  assert (Hhi : (Qfloor (r * inject_Z L) < L)%Z).
  { rewrite Zlt_Qlt. eapply Qle_lt_trans; [apply Qfloor_le|]. nra. }
  subst L. lia.
Qed.

(** What the generator relies on in the table of headlines: every
    sentiment is within 0.85 of zero, and moving it by 0.15 gives a
    number of 3 decimal places. *)
Lemma headlines_bounds (h : Headline) :
  In h headlines ->
  -0.85 <= sentiment h <= 0.85 /\
  toFixed3 (sentiment h - 0.15) == sentiment h - 0.15 /\
  toFixed3 (sentiment h + 0.15) == sentiment h + 0.15.
Proof.
  assert (Hall : forallb (fun h => Qle_bool (-0.85) (sentiment h)
                                   && Qle_bool (sentiment h) 0.85
                                   && Qeq_bool (toFixed3 (sentiment h - 0.15))
                                        (sentiment h - 0.15)
                                   && Qeq_bool (toFixed3 (sentiment h + 0.15))
                                        (sentiment h + 0.15)) headlines = true)
    by (vm_compute; reflexivity).
  intro Hin. apply (proj1 (forallb_forall _ _) Hall) in Hin.
  apply andb_prop in Hin. destruct Hin as [Hin Hup].
  apply andb_prop in Hin. destruct Hin as [Hin Hdown].
  apply andb_prop in Hin. destruct Hin as [Hlo Hhi].
  apply Qle_bool_iff in Hlo, Hhi. apply Qeq_bool_iff in Hup, Hdown.
  repeat split; assumption.
Qed.

(** Every article of a Snapshot takes its source from the table of
    sources and its headline from the table of headlines, and its score
    is within 0.15 of the sentiment of that headline. *)
Theorem articles_from_tables (now : Z) (rand : nat -> Q) :
  unitInterval rand ->
  Forall (fun a => In (source a) sources /\
                   exists h, In h headlines /\ headline a = text h /\
                             Qabs (sentiment_score a - sentiment h) <= 0.15)
    (articles (getSampleData now rand)).
Proof.
  intro Hunit. apply articles_Forall. intros date day i k.
  unfold newArticle, bind, random, ret.
  cbn [fst source headline sentiment_score].
  split.
  - apply pick_In; [discriminate|apply Hunit].
  - set (h := pick headlines noHeadline (rand k)).
    assert (Hin : In h headlines) by (apply pick_In; [discriminate|apply Hunit]).
    exists h. split; [exact Hin|]. split; [reflexivity|].
    destruct (headlines_bounds h Hin) as [[Hlo Hhi] [Hdown Hup]].
    destruct (Hunit (S (S k))) as [H0 H1].
    set (x := sentiment h + (rand (S (S k)) - 0.5) * 0.3) in *.
    assert (Hx : sentiment h - 0.15 <= x /\ x <= sentiment h + 0.15)
      by (unfold x; split; lra).
    destruct Hx as [Hx1 Hx2].
    assert (Hmin : JSmin 1 x = x).
    { unfold JSmin. destruct (Qle_bool 1 x) eqn:E; [|reflexivity].
      exfalso. q_bool. unfold x in E. lra. }
    assert (Hmax : JSmax (-1) x = x).
    { unfold JSmax. destruct (Qle_bool (-1) x) eqn:E; [reflexivity|].
      exfalso. q_bool. lra. }
    rewrite Hmin, Hmax.
    pose proof (toFixed3_monotone _ _ Hx1) as M1.
    pose proof (toFixed3_monotone _ _ Hx2) as M2.
    apply Qabs_Qle_condition. split; lra.
Qed.

Lemma articles_from_tables_witness :
  Forall (fun a => In (source a) sources /\
                   exists h, In h headlines /\ headline a = text h /\
                             Qabs (sentiment_score a - sentiment h) <= 0.15)
    (articles (getSampleData clock randZero)).
Proof. apply (articles_from_tables clock randZero). exact randZero_unit. Defined.

(** ** Progress bars *)

Lemma scoreToPercentage_bounds (x : Q) :
  -1 <= x <= 1 -> (0 <= scoreToPercentage x <= 100)%Z.
Proof.
  intros [Hlo Hhi]. unfold scoreToPercentage. split.
  - change 0%Z with (Qfloor 0). apply Qfloor_resp_le. lra.
  - change 100%Z with (Qfloor (201 # 2)). apply Qfloor_resp_le. lra.
Qed.

(** On scores between -1 and 1 the width of a progress bar is a whole
    percentage between 0 and 100 that grows with the score. *)
Theorem scoreToPercentage_range (x y : Q) :
  -1 <= x -> x <= y -> y <= 1 ->
  (0 <= scoreToPercentage x <= scoreToPercentage y)%Z /\
  (scoreToPercentage y <= 100)%Z.
Proof.
  intros Hx Hxy Hy.
  assert (Hbx : (0 <= scoreToPercentage x <= 100)%Z)
    by (apply scoreToPercentage_bounds; lra).
  assert (Hby : (0 <= scoreToPercentage y <= 100)%Z)
    by (apply scoreToPercentage_bounds; lra).
  assert (Hm : (scoreToPercentage x <= scoreToPercentage y)%Z)
    by (unfold scoreToPercentage; apply Qfloor_resp_le; lra).
  lia.
Qed.

Lemma scoreToPercentage_range_witness :
  (0 <= scoreToPercentage (-0.5) <= scoreToPercentage 0.25)%Z /\
  (scoreToPercentage 0.25 <= 100)%Z.
Proof.
  apply (scoreToPercentage_range (-0.5) 0.25); vm_compute; discriminate.
Defined.

(** ** The live feed *)

Lemma jsSlice_prefix {A : Type} (end_ : Z) (l : list A) :
  (0 <= end_)%Z -> jsSlice 0 end_ l = firstn (Z.to_nat end_) l.
Proof.
  intro Hend. unfold jsSlice, slice, relativeIndex.
  destruct (Z.ltb_spec end_ 0) as [Hneg|_]; [lia|].
  cbn [Z.ltb Z.compare skipn].
  replace (Z.to_nat (Z.min 0 (Z.of_nat (length l)))) with 0%nat by lia.
  cbn [skipn]. rewrite Nat.sub_0_r.
  destruct (Z.le_ge_cases end_ (Z.of_nat (length l))) as [Hle|Hge].
  - now rewrite Z.min_l.
  - rewrite Z.min_r, Nat2Z.id by exact Hge.
    rewrite !firstn_all2; [reflexivity|lia|lia].
Qed.

Lemma LiveFeed_nonempty (l : list Article) (limit : Z) (expanded : bool) :
  l <> [] ->
  LiveFeed (Some l) limit expanded =
  Headlines (if expanded then jsSlice 0 30 l else jsSlice 0 limit l)
    (if (limit <? Z.of_nat (length l))%Z
     then Some (if expanded then ShowLess
                else ShowMore (Z.min 30 (Z.of_nat (length l)) - limit))
     else None).
Proof. intro Hne. destruct l; [contradiction|reflexivity]. Qed.

(** For a non-empty list of articles and a non-negative [limit],
    [LiveFeed] displays the first [limit] articles, or the first 30 when
    expanded.  With at most [limit] articles it displays them all and
    offers no button.  With more, the collapsed view announces
    "Show N More Headlines" where N is exactly the change in the number
    of displayed headlines that expanding brings (negative when [limit]
    exceeds 30), and the expanded view offers "Show Less". *)
Theorem LiveFeed_display (l : list Article) (limit : Z) :
  l <> [] -> (0 <= limit)%Z ->
  displayed (LiveFeed (Some l) limit false) = firstn (Z.to_nat limit) l /\
  displayed (LiveFeed (Some l) limit true) = firstn 30 l /\
  ((Z.of_nat (length l) <= limit)%Z ->
   displayed (LiveFeed (Some l) limit false) = l /\
   buttonOf (LiveFeed (Some l) limit false) = None) /\
  ((limit < Z.of_nat (length l))%Z ->
   buttonOf (LiveFeed (Some l) limit false) =
     Some (ShowMore (Z.of_nat (length (displayed (LiveFeed (Some l) limit true)))
                     - Z.of_nat (length (displayed (LiveFeed (Some l) limit false))))) /\
   buttonOf (LiveFeed (Some l) limit true) = Some ShowLess).
Proof.
  intros Hne Hlimit. rewrite !(LiveFeed_nonempty l limit _ Hne).
  cbn [displayed buttonOf].
  rewrite (jsSlice_prefix limit l Hlimit), (jsSlice_prefix 30 l) by lia.
  change (Z.to_nat 30) with 30%nat.
  split; [reflexivity|]. split; [reflexivity|]. split.
  - intro Hle. split; [apply firstn_all2; lia|].
    destruct (Z.ltb_spec limit (Z.of_nat (length l))); [lia|reflexivity].
  - intro Hlt. destruct (Z.ltb_spec limit (Z.of_nat (length l))); [|lia].
    split; [|reflexivity].
    do 2 f_equal. rewrite !length_firstn. lia.
Qed.

Lemma LiveFeed_display_witness :
  displayed (LiveFeed (Some (articles (getSampleData clock randZero))) 40 false) =
    firstn (Z.to_nat 40) (articles (getSampleData clock randZero)) /\
  displayed (LiveFeed (Some (articles (getSampleData clock randZero))) 40 true) =
    firstn 30 (articles (getSampleData clock randZero)) /\
  ((Z.of_nat (length (articles (getSampleData clock randZero))) <= 40)%Z ->
   displayed (LiveFeed (Some (articles (getSampleData clock randZero))) 40 false) =
     articles (getSampleData clock randZero) /\
   buttonOf (LiveFeed (Some (articles (getSampleData clock randZero))) 40 false) = None) /\
  ((40 < Z.of_nat (length (articles (getSampleData clock randZero))))%Z ->
   buttonOf (LiveFeed (Some (articles (getSampleData clock randZero))) 40 false) =
     Some (ShowMore
             (Z.of_nat (length (displayed
                (LiveFeed (Some (articles (getSampleData clock randZero))) 40 true)))
              - Z.of_nat (length (displayed
                  (LiveFeed (Some (articles (getSampleData clock randZero))) 40 false))))) /\
   buttonOf (LiveFeed (Some (articles (getSampleData clock randZero))) 40 true) =
     Some ShowLess).
Proof.
  apply (LiveFeed_display (articles (getSampleData clock randZero)) 40).
  - vm_compute. discriminate.
  - lia.
Defined.

Lemma articles_at_least_56 (now : Z) (rand : nat -> Q) :
  unitInterval rand -> (56 <= length (articles (getSampleData now rand)))%nat.
Proof.
  intro Hunit. rewrite (articles_generation_order now rand Hunit).
  pose proof (length_articlesAfter now rand 14 Hunit) as Hlen.
  pose proof (sumZ_bounds 4 8
                (map (fun day => numArticlesAt rand (dayStart rand day)) (seq 0 14))) as H.
  rewrite length_map, length_seq in H.
  assert (Hall : Forall (fun x => (4 <= x <= 8)%Z)
                   (map (fun day => numArticlesAt rand (dayStart rand day)) (seq 0 14))).
  { rewrite Forall_map. apply Forall_forall. intros day _.
    apply numArticlesAt_bounds, Hunit. }
  specialize (H Hall). lia.
Qed.

(** With the [limit] of 12 that [App] passes, the feed of a generated
    Snapshot shows its 12 newest articles and the button "Show 18 More
    Headlines"; expanded, it shows 30 articles and "Show Less". *)
Theorem sample_feed (now : Z) (rand : nat -> Q) :
  unitInterval rand ->
  LiveFeed (Some (articles (getSampleData now rand))) 12 false =
    Headlines (firstn 12 (articles (getSampleData now rand))) (Some (ShowMore 18)) /\
  length (firstn 12 (articles (getSampleData now rand))) = 12%nat /\
  LiveFeed (Some (articles (getSampleData now rand))) 12 true =
    Headlines (firstn 30 (articles (getSampleData now rand))) (Some ShowLess) /\
  length (firstn 30 (articles (getSampleData now rand))) = 30%nat.
Proof.
  intro Hunit. pose proof (articles_at_least_56 now rand Hunit) as Hlen.
  set (arts := articles (getSampleData now rand)) in *.
  assert (Hne : arts <> []) by (intro E; rewrite E in Hlen; cbn [length] in Hlen; lia).
  rewrite !(LiveFeed_nonempty arts 12 _ Hne), !jsSlice_prefix by lia.
  change (Z.to_nat 12) with 12%nat. change (Z.to_nat 30) with 30%nat.
  destruct (Z.ltb_spec 12 (Z.of_nat (length arts))); [|lia].
  rewrite Z.min_l by lia. rewrite !length_firstn.
  repeat split; lia.
Qed.

Lemma sample_feed_witness :
  LiveFeed (Some (articles (getSampleData clock randZero))) 12 false =
    Headlines (firstn 12 (articles (getSampleData clock randZero))) (Some (ShowMore 18)) /\
  length (firstn 12 (articles (getSampleData clock randZero))) = 12%nat /\
  LiveFeed (Some (articles (getSampleData clock randZero))) 12 true =
    Headlines (firstn 30 (articles (getSampleData clock randZero))) (Some ShowLess) /\
  length (firstn 30 (articles (getSampleData clock randZero))) = 30%nat.
Proof. apply (sample_feed clock randZero). exact randZero_unit. Defined.

(** ** Time ago *)

Lemma div_between (a b q : Z) :
  (0 < b)%Z -> (b * q <= a < b * (q + 1))%Z -> (a / b)%Z = q.
Proof.
  intros Hb Ha. symmetry. apply (Z.div_unique a b q (a - b * q)); lia.
Qed.

Lemma div_bracket (a b : Z) :
  (0 < b)%Z -> (a / b * b <= a < (a / b + 1) * b)%Z.
Proof.
  intro Hb. pose proof (Z.div_mod a b ltac:(lia)) as E.
  pose proof (Z.mod_pos_bound a b Hb). lia.
Qed.

(** The text of [formatTimeAgo] for a valid date: a number [n] of
    minutes below 60, of hours from 1 to 23 or of days from 1 on, such
    that the elapsed time is at least [n] and less than [n + 1] of the
    unit.  A date in the future gives a negative number of minutes. *)
Theorem formatTimeAgo_brackets (now date : Z) :
  exists n,
    (formatTimeAgo now (Some date) = (showZ n ++ "m")%string /\
     (n < 60)%Z /\ (n * 60000 <= now - date < (n + 1) * 60000)%Z) \/
    (formatTimeAgo now (Some date) = (showZ n ++ "h")%string /\
     (1 <= n < 24)%Z /\ (n * 3600000 <= now - date < (n + 1) * 3600000)%Z) \/
    (formatTimeAgo now (Some date) = (showZ n ++ "d")%string /\
     (1 <= n)%Z /\ (n * 86400000 <= now - date < (n + 1) * 86400000)%Z).
Proof.
  unfold formatTimeAgo. cbv zeta.
  pose proof (div_bracket (now - date) 60000 eq_refl) as Hm.
  pose proof (div_bracket (now - date) 3600000 eq_refl) as Hh.
  pose proof (div_bracket (now - date) 86400000 eq_refl) as Hd.
  destruct (Z.ltb_spec ((now - date) / 60000) 60) as [Hm60|Hm60].
  - exists ((now - date) / 60000)%Z. left. split; [reflexivity|]. lia.
  - destruct (Z.ltb_spec ((now - date) / 3600000) 24) as [Hh24|Hh24].
    + exists ((now - date) / 3600000)%Z. right; left. split; [reflexivity|]. lia.
    + exists ((now - date) / 86400000)%Z. right; right. split; [reflexivity|]. lia.
Qed.

Lemma formatTimeAgo_generated (now delta : Z) (day i : nat) :
  (0 <= delta < 60000)%Z -> (i < 24)%nat ->
  formatTimeAgo (now + delta) (Some (dateOf now day - Z.of_nat i * msPerHour)%Z) =
  expectedTimeAgo day i.
Proof.
  intros Hdelta Hi. unfold formatTimeAgo, dateOf, msPerDay, msPerHour. cbv zeta.
  set (diff := (now + delta - (now - Z.of_nat day * 86400000 - Z.of_nat i * 3600000))%Z).
  assert (Ediff : diff = (delta + Z.of_nat day * 86400000 + Z.of_nat i * 3600000)%Z)
    by (unfold diff; lia).
  clearbody diff. subst diff.
  destruct day as [|day].
  - destruct i as [|i].
    + rewrite (div_between _ 60000 0) by lia. reflexivity.
    + rewrite (div_between _ 60000 (60 * Z.of_nat (S i))) by lia.
      rewrite (div_between _ 3600000 (Z.of_nat (S i))) by lia.
      destruct (Z.ltb_spec (60 * Z.of_nat (S i)) 60); [lia|].
      destruct (Z.ltb_spec (Z.of_nat (S i)) 24); [reflexivity|lia].
  - rewrite (div_between _ 60000 (1440 * Z.of_nat (S day) + 60 * Z.of_nat i)) by lia.
    rewrite (div_between _ 3600000 (24 * Z.of_nat (S day) + Z.of_nat i)) by lia.
    rewrite (div_between _ 86400000 (Z.of_nat (S day))) by lia.
    destruct (Z.ltb_spec (1440 * Z.of_nat (S day) + 60 * Z.of_nat i) 60); [lia|].
    destruct (Z.ltb_spec (24 * Z.of_nat (S day) + Z.of_nat i) 24); [lia|].
    reflexivity.
Qed.

Lemma map_flat_map_comm {A B C : Type} (g : B -> C) (F : A -> list B) (l : list A) :
  map g (flat_map F l) = flat_map (fun d => map g (F d)) l.
Proof.
  induction l as [|x l IH]; cbn [flat_map map]; [reflexivity|].
  now rewrite map_app, IH.
Qed.

Lemma flat_map_ext_in {A B : Type} (F G : A -> list B) (l : list A) :
  (forall d, In d l -> F d = G d) -> flat_map F l = flat_map G l.
Proof.
  induction l as [|x l IH]; intro H; cbn [flat_map]; [reflexivity|].
  rewrite (H x) by now left. rewrite IH; [reflexivity|].
  intros d Hd. apply H. now right.
Qed.

Lemma indexed_tabulate {A : Type} (c : nat -> A) (n : nat) :
  forall a, indexed a (map c (seq a n)) = map (fun d => (d, c d)) (seq a n).
Proof.
  unfold indexed. induction n as [|n IH]; intro a; [reflexivity|].
  cbn [seq map length combine]. f_equal. apply IH.
Qed.



(** ** Scroll progress *)

Lemma handleScroll_visible (rect : DOMRect) (windowHeight : Q) (st : ScrollState) :
  bottom rect == top rect + height rect ->
  isVisible (handleScroll (Some rect) windowHeight st) = true ->
  progress (handleScroll (Some rect) windowHeight st) =
    (windowHeight - top rect) / (windowHeight + height rect) /\
  0 <= (windowHeight - top rect) / (windowHeight + height rect) <= 1.
Proof.
  intros Hrect. unfold handleScroll. cbv zeta.
  destruct (Qlt_bool (top rect) windowHeight && Qlt_bool 0 (bottom rect)) eqn:Hvis;
    cbn [isVisible progress]; [intros _|discriminate].
  apply andb_prop in Hvis. destruct Hvis as [Htop Hbottom]. q_bool.
  set (ratio := (windowHeight - top rect) / (windowHeight + height rect)).
  assert (Hden : 0 < windowHeight + height rect) by lra.
  assert (Hlo : 0 <= ratio) by (apply Qle_shift_div_l; [exact Hden|lra]).
  assert (Hhi : ratio <= 1) by (apply Qle_shift_div_r; [exact Hden|lra]).
  split; [|split; assumption].
  unfold JSmax. apply Qle_bool_iff in Hlo. rewrite Hlo.
  unfold JSmin. destruct (Qle_bool 1 ratio) eqn:E; [|reflexivity].
  (* the ratio is below 1, so the first argument of [Math.min] is not taken *)
  exfalso. apply Qle_bool_iff in E.
  assert (Hstrict : ratio < 1) by (apply Qlt_shift_div_r; [exact Hden|lra]).
  lra.
Qed.

Lemma handleScroll_range (e : option DOMRect * Q) (st : ScrollState) :
  rectConsistent e -> 0 <= progress st <= 1 ->
  0 <= progress (handleScroll (fst e) (snd e) st) <= 1.
Proof.
  intros He Hst. destruct e as [[r|] wh]; cbn [fst snd]; [|exact Hst].
  unfold rectConsistent in He. cbn [fst] in He.
  destruct (isVisible (handleScroll (Some r) wh st)) eqn:Hvis.
  - destruct (handleScroll_visible r wh st He Hvis) as [-> Hrange]. exact Hrange.
  - revert Hvis. unfold handleScroll. cbv zeta.
    destruct (Qlt_bool (top r) wh && Qlt_bool 0 (bottom r));
      cbn [isVisible progress]; [discriminate|intros _; exact Hst].
Qed.

Lemma scrolled_range (events : list (option DOMRect * Q)) :
  Forall rectConsistent events ->
  forall st, 0 <= progress st <= 1 ->
    0 <= progress (fold_left (fun st e => handleScroll (fst e) (snd e) st) events st) <= 1.
Proof.
  induction 1 as [|e events He _ IH]; intros st Hst; cbn [fold_left]; [exact Hst|].
  apply IH, handleScroll_range; assumption.
Qed.

(** After any series of scroll events [progress] lies between 0 and 1.
    On a further event that finds the section visible, [progress]
    becomes the ratio of [windowHeight - top] to
    [windowHeight + height], which the clamp to 0 and 1 leaves unchanged;
    on an event that finds it not visible, [progress] keeps its value. *)
Theorem scroll_progress (events : list (option DOMRect * Q)) (rect : DOMRect)
    (windowHeight : Q) :
  Forall rectConsistent events ->
  bottom rect == top rect + height rect ->
  0 <= progress (scrolled events) <= 1 /\
  (isVisible (handleScroll (Some rect) windowHeight (scrolled events)) = true ->
   progress (handleScroll (Some rect) windowHeight (scrolled events)) =
     (windowHeight - top rect) / (windowHeight + height rect)) /\
  (isVisible (handleScroll (Some rect) windowHeight (scrolled events)) = false ->
   progress (handleScroll (Some rect) windowHeight (scrolled events)) =
     progress (scrolled events)).
Proof.
  intros Hevents Hrect. split; [|split].
  - apply (scrolled_range events Hevents). cbn [initialScroll progress]. lra.
  - intro Hvis. exact (proj1 (handleScroll_visible rect windowHeight _ Hrect Hvis)).
  - unfold handleScroll. cbv zeta.
    destruct (Qlt_bool (top rect) windowHeight && Qlt_bool 0 (bottom rect));
      cbn [isVisible progress]; [discriminate|reflexivity].
Qed.

Lemma scroll_progress_witness :
  0 <= progress (scrolled [(Some {| top := 100; bottom := 700; height := 600 |}, 800);
                           (None, 800)]) <= 1 /\
  (isVisible (handleScroll (Some {| top := -200; bottom := 400; height := 600 |}) 800
                (scrolled [(Some {| top := 100; bottom := 700; height := 600 |}, 800);
                           (None, 800)])) = true ->
   progress (handleScroll (Some {| top := -200; bottom := 400; height := 600 |}) 800
               (scrolled [(Some {| top := 100; bottom := 700; height := 600 |}, 800);
                          (None, 800)])) =
     (800 - top {| top := -200; bottom := 400; height := 600 |})
     / (800 + height {| top := -200; bottom := 400; height := 600 |})) /\
  (isVisible (handleScroll (Some {| top := -200; bottom := 400; height := 600 |}) 800
                (scrolled [(Some {| top := 100; bottom := 700; height := 600 |}, 800);
                           (None, 800)])) = false ->
   progress (handleScroll (Some {| top := -200; bottom := 400; height := 600 |}) 800
               (scrolled [(Some {| top := 100; bottom := 700; height := 600 |}, 800);
                          (None, 800)])) =
     progress (scrolled [(Some {| top := 100; bottom := 700; height := 600 |}, 800);
                         (None, 800)])).
Proof.
  apply (scroll_progress
           [(Some {| top := 100; bottom := 700; height := 600 |}, 800); (None, 800)]
           {| top := -200; bottom := 400; height := 600 |} 800).
  - repeat constructor.
  - vm_compute. reflexivity.
Defined.

(** ** What [App] and [LineChart] take from a Snapshot *)

Lemma Forall_slice {A : Type} (P : A -> Prop) (a b : nat) (l : list A) :
  Forall P l -> Forall P (slice a b l).
Proof.
  intro H. unfold slice.
  rewrite <- (firstn_skipn a l) in H. apply Forall_app in H. destruct H as [_ H].
  rewrite <- (firstn_skipn (b - a) (skipn a l)) in H. apply Forall_app in H.
  exact (proj1 H).
Qed.

Lemma StronglySorted_app_cross {A : Type} (R : A -> A -> Prop) (l l' : list A) :
  StronglySorted R (l ++ l') -> forall a b, In a l -> In b l' -> R a b.
Proof.
  induction l as [|x l IH]; cbn [app]; intros Hs a b Ha Hb; [contradiction|].
  inversion Hs as [|? ? Hs' Hall]; subst. destruct Ha as [<-|Ha].
  - apply (proj1 (Forall_forall _ _) Hall). apply in_or_app. now right.
  - now apply IH.
Qed.

(** "Top Sources" lists the first 8 entries of [source_stats], or all of
    them if there are fewer; no source left out has more articles than a
    listed one, and the width of every progress bar is a percentage
    between 0 and 100. *)
Theorem top_sources (now : Z) (rand : nat -> Q) :
  exists rest,
    source_stats (getSampleData now rand) = topSources (getSampleData now rand) ++ rest /\
    length (topSources (getSampleData now rand)) =
      Nat.min 8 (length (source_stats (getSampleData now rand))) /\
    (forall a b, In a (topSources (getSampleData now rand)) -> In b rest ->
                 (ss_article_count a >= ss_article_count b)%Z) /\
    Forall (fun st => (0 <= scoreToPercentage (ss_avg_sentiment st) <= 100)%Z)
      (topSources (getSampleData now rand)).
Proof.
  assert (Htop : topSources (getSampleData now rand) =
                 firstn 8 (source_stats (getSampleData now rand))).
  { unfold topSources. now rewrite jsSlice_prefix by lia. }
  assert (Hsorted : StronglySorted
                      (fun a b => (ss_article_count a >= ss_article_count b)%Z)
                      (source_stats (getSampleData now rand))).
  { unfold getSampleData, sourceStatsOf. cbn [source_stats].
    apply (sortBy_descending ss_article_count). }
  exists (skipn 8 (source_stats (getSampleData now rand))).
  split; [|split; [|split]].
  - rewrite Htop. symmetry. apply firstn_skipn.
  - rewrite Htop. apply length_firstn.
  - rewrite Htop. apply StronglySorted_app_cross. now rewrite firstn_skipn.
  - unfold topSources, jsSlice. apply Forall_slice.
    eapply Forall_impl; [|apply source_stats_ranges].
    intros st Hst. apply scoreToPercentage_bounds, Hst.
Qed.

Lemma length_daily_stats (now : Z) (rand : nat -> Q) :
  length (daily_stats (getSampleData now rand)) = 14%nat.
Proof.
  rewrite <- (length_map date), daily_stats_dates, length_rev, length_map.
  apply length_seq.
Qed.



(** The value that the area and the trend line of [LineChart] plot for a
    day lies within the domain [-1, 1] of the vertical scale; it is the
    moving average of the day, except that a moving average of exactly 0
    is replaced by the average of the day itself. *)
Theorem plotted_values (now : Z) (rand : nat -> Q) :
  unitInterval rand ->
  Forall (fun d => -1 <= plottedValue d <= 1 /\
                   exists v, moving_avg d = Some v /\
                             (~ v == 0 -> plottedValue d = v) /\
                             (v == 0 -> plottedValue d = avg_sentiment d))
    (daily_stats (getSampleData now rand)).
Proof.
  intro Hunit.
  eapply Forall_impl; [|apply (daily_stats_ranges now rand Hunit)].
  intros d [Havg [v [Hv Hrange]]]. unfold plottedValue. rewrite Hv.
  destruct (Qeq_bool v 0) eqn:E.
  - apply Qeq_bool_iff in E. split; [exact Havg|].
    exists v. split; [reflexivity|]. split; [intro Hne; contradiction|reflexivity].
  - apply Qeq_bool_neq in E. split; [exact Hrange|].
    exists v. split; [reflexivity|]. split; [reflexivity|intro H0; contradiction].
Qed.

Lemma plotted_values_witness :
  Forall (fun d => -1 <= plottedValue d <= 1 /\
                   exists v, moving_avg d = Some v /\
                             (~ v == 0 -> plottedValue d = v) /\
                             (v == 0 -> plottedValue d = avg_sentiment d))
    (daily_stats (getSampleData clock randZero)).
Proof. apply (plotted_values clock randZero). exact randZero_unit. Defined.

(** ** Sources and totals *)

Lemma sumZ_Permutation (l l' : list Z) : Permutation l l' -> sumZ l = sumZ l'.
Proof.
  unfold sumZ. induction 1; cbn [fold_right]; lia.
Qed.

(** The sum of the [count] fields of a [sourceMap]. *)
Lemma sumZ_setKey (k : string) (v : SourceAcc) (m : list (string * SourceAcc)) :
  sumZ (map (fun e => count (snd e)) (setKey k v m)) =
  (sumZ (map (fun e => count (snd e)) m)
   - match getKey k m with Some acc => count acc | None => 0 end
   + count v)%Z.
Proof.
  unfold sumZ. induction m as [|[k' v'] m IH]; cbn [setKey getKey map fold_right snd].
  - lia.
  - destruct (String.eqb k k'); cbn [map fold_right snd]; lia.
Qed.

Lemma sumZ_addToSourceMap (m : list (string * SourceAcc)) (a : Article) :
  sumZ (map (fun e => count (snd e)) (addToSourceMap m a)) =
  (sumZ (map (fun e => count (snd e)) m) + 1)%Z.
Proof.
  unfold addToSourceMap. destruct (getKey (source a) m) as [acc|] eqn:E.
  - rewrite E, sumZ_setKey, E. cbn [count]. lia.
  - rewrite getKey_setKey_same, !sumZ_setKey, E, getKey_setKey_same. cbn [count]. lia.
Qed.

Lemma sumZ_sourceMap (l : list Article) :
  forall m,
    sumZ (map (fun e => count (snd e)) (fold_left addToSourceMap l m)) =
    (sumZ (map (fun e => count (snd e)) m) + Z.of_nat (length l))%Z.
Proof.
  induction l as [|a l IH]; intro m; cbn [fold_left length].
  - lia.
  - rewrite IH, sumZ_addToSourceMap. lia.
Qed.

(** The sources partition the articles: the [article_count] values of
    [source_stats] add up to [total_articles]; every listed source is one
    of the 12 of the table, and there are between 1 and 12 entries. *)
Theorem sources_partition_articles (now : Z) (rand : nat -> Q) :
  unitInterval rand ->
  sumZ (map ss_article_count (source_stats (getSampleData now rand))) =
    total_articles (getSampleData now rand) /\
  Forall (fun st => In (ss_source st) sources) (source_stats (getSampleData now rand)) /\
  (1 <= length (source_stats (getSampleData now rand)) <= 12)%nat.
Proof.
  intro Hunit.
  assert (Hsum : sumZ (map ss_article_count (source_stats (getSampleData now rand))) =
                 total_articles (getSampleData now rand)).
  { unfold getSampleData, sourceStatsOf. cbn [source_stats total_articles].
    rewrite (sumZ_Permutation _ _ (Permutation_map ss_article_count (sortBy_Permutation _ _))).
    rewrite map_map. cbn [toSourceStat ss_article_count].
    rewrite sumZ_sourceMap. reflexivity. }
  assert (Hin : Forall (fun st => In (ss_source st) sources)
                  (source_stats (getSampleData now rand))).
  { apply Forall_forall. intros st Hst.
    destruct (source_stats_groups now rand st Hst) as [b [group [Hgroup _]]].
    assert (Hb : In b (bySource (ss_source st) (fst (fst (generated now rand)))))
      by (rewrite Hgroup; now left).
    apply filter_In in Hb. destruct Hb as [Hb Hsrc].
    apply String.eqb_eq in Hsrc. rewrite <- Hsrc. clear Hgroup Hsrc.
    revert b Hb. apply Forall_forall, generated_Forall. intros date day i k.
    unfold newArticle, bind, random, ret. cbn [fst source].
    apply pick_In; [discriminate|apply Hunit]. }
  split; [exact Hsum|]. split; [exact Hin|]. split.
  - destruct (source_stats (getSampleData now rand)) as [|st l] eqn:E; [|cbn [length]; lia].
    exfalso. pose proof (articles_at_least_56 now rand Hunit) as Hlen.
    unfold sumZ in Hsum. cbn [map fold_right] in Hsum.
    unfold getSampleData in Hsum, Hlen. cbn [total_articles articles] in Hsum, Hlen.
    rewrite (Permutation_length (sortBy_Permutation _ _)) in Hlen. lia.
  - change 12%nat with (length sources).
    rewrite <- (length_map ss_source). apply NoDup_incl_length.
    + unfold getSampleData, sourceStatsOf. cbn [source_stats].
      destruct (sourceMap_spec (fst (fst (generated now rand)))) as [Hnd _].
      eapply Permutation_NoDup; [|exact Hnd].
      rewrite (Permutation_map ss_source (sortBy_Permutation _ _)), map_map. reflexivity.
    + intros x Hx. apply in_map_iff in Hx. destruct Hx as [st [<- Hst]].
      exact (proj1 (Forall_forall _ _) Hin st Hst).
Qed.

Lemma sources_partition_articles_witness :
  sumZ (map ss_article_count (source_stats (getSampleData clock randZero))) =
    total_articles (getSampleData clock randZero) /\
  Forall (fun st => In (ss_source st) sources) (source_stats (getSampleData clock randZero)) /\
  (1 <= length (source_stats (getSampleData clock randZero)) <= 12)%nat.
Proof. apply (sources_partition_articles clock randZero). exact randZero_unit. Defined.

(** ** Rounding twice *)

Lemma Qfloor_half (n : Z) : Qfloor (inject_Z n + (1 # 2)) = n.
Proof.
  pose proof (Qfloor_le (inject_Z n + (1 # 2))) as Hle.
  pose proof (Qlt_floor (inject_Z n + (1 # 2))) as Hlt.
  set (f := Qfloor (inject_Z n + (1 # 2))) in *.
  assert (H1 : (f < n + 1)%Z).
  { rewrite Zlt_Qlt, inject_Z_plus. change (inject_Z 1) with 1. lra. }
  assert (H2 : (n < f + 1)%Z).
  { rewrite Zlt_Qlt. eapply Qle_lt_trans; [|exact Hlt]. lra. }
  lia.
Qed.

Lemma roundHalfAway_inject (n : Z) : roundHalfAway (inject_Z n) = n.
Proof.
  unfold roundHalfAway. destruct (Qle_bool 0 (inject_Z n)).
  - apply Qfloor_half.
  - rewrite (Qfloor_comp (- inject_Z n + (1 # 2)) (inject_Z (- n) + (1 # 2))).
    + rewrite Qfloor_half. lia.
    + rewrite inject_Z_opp. reflexivity.
Qed.

(** [parseFloat(x.toFixed(3))] leaves a number that it has produced
    unchanged. *)
Lemma toFixed3_idempotent (x : Q) : toFixed3 (toFixed3 x) = toFixed3 x.
Proof.
  assert (E : roundHalfAway (toFixed3 x * 1000) = roundHalfAway (x * 1000)).
  { rewrite (roundHalfAway_comp _ (inject_Z (roundHalfAway (x * 1000)))).
    - apply roundHalfAway_inject.
    - unfold toFixed3. rewrite (Qmake_Qdiv (roundHalfAway (x * 1000)) 1000).
      change (inject_Z (Z.pos 1000)) with 1000. field. }
  unfold toFixed3 at 1. rewrite E. reflexivity.
Qed.

(** The window of the oldest day holds that day alone: its [moving_avg]
    is its own [avg_sentiment]. *)
Theorem oldest_day_moving_avg (now : Z) (rand : nat -> Q) :
  exists d rest,
    daily_stats (getSampleData now rand) = d :: rest /\
    moving_avg d = Some (avg_sentiment d).
Proof.
  unfold getSampleData. cbn [daily_stats]. rewrite generated_spec. cbn [fst snd].
  rewrite movingAvgLoop_spec.
  set (stats := rev (map (statOf now rand) (seq 0 14))).
  assert (Hstats : exists rest, stats = statOf now rand 13 :: rest).
  { unfold stats. cbn [seq map rev app]. eexists. reflexivity. }
  destruct Hstats as [rest Hrest]. clearbody stats. subst stats.
  assert (Hmean : windowMean (statOf now rand 13 :: rest) 0 ==
                  avg_sentiment (statOf now rand 13)).
  { unfold windowMean, mean, sumQ.
    cbn [Nat.max Nat.sub seq map nth fold_left length Z.of_nat Pos.of_succ_nat].
    change (inject_Z 1) with 1. field. }
  unfold indexed. cbn [length seq combine map fst snd].
  eexists. eexists. split; [reflexivity|].
  cbn [setMovingAvg moving_avg avg_sentiment]. f_equal.
  rewrite (toFixed3_comp _ _ Hmean).
  unfold statOf. cbn [avg_sentiment]. apply toFixed3_idempotent.
Qed.
